(** * LightCPVerifier: the two provider adapters [chatgpt_api.py] and
    [gemini_api.py], embedded as state-and-exception passing programs.

    Both scripts are straight-line glue around a vendor SDK.  The SDKs, the
    process environment and the operating system are not part of the
    repository; they enter the development as records of oracles
    ([openai_sdk], [genai_sdk], [Host]), in the way a test would pass a mock
    client.  Everything else is transcribed from the two Python files. *)

From stdpp Require Import base option list strings gmap.
From Stdlib Require Import Ascii ZArith.

Local Open Scope string_scope.
Local Open Scope Z_scope.

(** ** Python exceptions *)

(** The classes that matter to [except Exception]: everything the scripts
    and the SDKs raise derives from [Exception], except the three
    interpreter-level classes that derive from [BaseException] only. *)
Inductive exc_class : Type :=
  | ValueError
  | TypeError
  | AttributeError
  | IndexError
  | FileNotFoundError
  | OSError
  | UnicodeEncodeError
  | SDKError (name : string)
  | KeyboardInterrupt
  | SystemExit
  | GeneratorExit.

(** [exn_str e] is what [str(e)] (and so [f"{e}"]) evaluates to. *)
Record exn : Type := Exn { exn_class : exc_class; exn_str : string }.

Definition isinstance_Exception (e : exn) : bool :=
  match exn_class e with
  | KeyboardInterrupt | SystemExit | GeneratorExit => false
  | _ => true
  end.

Inductive res (A : Type) : Type :=
  | Ret (a : A)
  | Raise (e : exn).
Arguments Ret {A} a.
Arguments Raise {A} e.

(** ** Values of the vendor SDKs *)

(** [openai.OpenAI]: the client object. *)
Record OpenAI : Type := { client_api_key : option string }.

(** One element of [completion.choices]; [message.content] is an optional
    string in the SDK. *)
Record Choice : Type := { message_content : option string }.

(** A chat completion: its choices and what [str(completion)] gives. *)
Record ChatCompletion : Type :=
  { choices : list Choice; completion_str : string }.

(** [genai.GenerativeModel]. *)
Record GenerativeModel : Type := { model_name : string }.

(** The response of [generate_content]: the [text] property either yields a
    string or raises; [response_str] is what [print] shows for it. *)
Record GenerateContentResponse : Type :=
  { text : res string; response_str : string }.

(** Keyword arguments of [chat.completions.create]. *)
Inductive kwval : Type :=
  | KStr (s : string)
  | KMessages (l : list (gmap string string)).

(** The values an adapter attribute can hold. *)
Inductive pyval : Type :=
  | VNone
  | VStr (s : string)
  | VClient (c : OpenAI)
  | VModel (m : GenerativeModel).

(** Python truthiness, as used by [if not self.model]. *)
Definition truthy (v : pyval) : bool :=
  match v with
  | VNone => false
  | VStr s => negb (String.eqb s "")
  | VClient _ | VModel _ => true
  end.

(** One outbound request, with the arguments it was issued with. *)
Inductive net_call : Type :=
  | chat_completions_create (client : OpenAI) (kwargs : gmap string kwval)
  | generate_content (m : GenerativeModel) (contents : string)
      (request_options : gmap string Z).

(** ** The state of a run *)

(** [self_dict] is the attribute dictionary of the adapter object [llm];
    [net] lists the outbound requests issued so far, oldest first; [stdout]
    the printed lines; [fs] the files by path. *)
Record state : Type := State
  { self_dict : gmap string pyval;
    net : list net_call;
    stdout : list string;
    fs : gmap string string }.

(** Commands: they may change the state and either return or raise.  A
    raise keeps the state changes made before it, as in Python. *)
Definition M (A : Type) : Type := state → res A * state.

Definition ret {A} (a : A) : M A := λ st, (Ret a, st).

Definition raise {A} (e : exn) : M A := λ st, (Raise e, st).

Definition bind {A B} (c : M A) (k : A → M B) : M B :=
  λ st, match c st with
        | (Ret a, st') => k a st'
        | (Raise e, st') => (Raise e, st')
        end.

Notation "'let*' x ':=' c 'in' k" := (bind c (λ x, k))
  (at level 10, x pattern, c at level 100, k at level 200).
Notation "c ';;;' k" := (bind c (λ _, k))
  (at level 100, k at level 200, right associativity).

(** [try: body except Exception as e: handler e]. *)
Definition try_except {A} (body : M A) (handler : exn → M A) : M A :=
  λ st, match body st with
        | (Ret a, st') => (Ret a, st')
        | (Raise e, st') =>
            if isinstance_Exception e then handler e st' else (Raise e, st')
        end.

Definition lift_res {A} (r : res A) : M A := λ st, (r, st).

(** [print(s)]. *)
Definition print (s : string) : M unit :=
  λ st, (Ret tt, State (self_dict st) (net st) (stdout st ++ [s]) (fs st)).

(** [self.name = v]. *)
Definition setattr_self (name : string) (v : pyval) : M unit :=
  λ st, (Ret tt, State (<[name := v]> (self_dict st)) (net st) (stdout st) (fs st)).

(** [self.name]. *)
Definition getattr_self (name : string) : M pyval :=
  λ st, match self_dict st !! name with
        | Some v => (Ret v, st)
        | None => (Raise (Exn AttributeError name), st)
        end.

(** The fresh object [cls()] hands to [__init__]. *)
Definition new_object : M unit :=
  λ st, (Ret tt, State ∅ (net st) (stdout st) (fs st)).

(** [v + s] for a string [s]. *)
Definition str_add (v : pyval) (s : string) : M string :=
  match v with
  | VStr p => ret (p +:+ s)
  | _ => raise (Exn TypeError "unsupported operand type(s) for +")
  end.

(** [needle in hay] on strings. *)
Fixpoint contains (needle hay : string) : bool :=
  String.prefix needle hay ||
  match hay with
  | EmptyString => false
  | String _ hay' => contains needle hay'
  end.

(** ** The host: environment and file system *)

(** [environ] is the process environment after [load_dotenv()];
    [open_w_error path] is the error, if any, with which the operating
    system refuses to open [path] for writing; [locale_encode_error s] is
    the error, if any, with which the locale's codec refuses the text [s],
    which is what a file opened without [encoding=] writes through. *)
Record Host : Type :=
  { environ : gmap string string;
    open_w_error : string → option exn;
    locale_encode_error : string → option exn }.

Section host.
Variable host : Host.

(** [os.getenv(name)]. *)
Definition os_getenv (name : string) : M (option string) :=
  ret (environ host !! name).

(** [os.path.exists(path)]. *)
Definition os_path_exists (path : string) : M bool :=
  λ st, (Ret (bool_decide (is_Some (fs st !! path))), st).

(** [open(path, 'r').read()]. *)
Definition read_file (path : string) : M string :=
  λ st, match fs st !! path with
        | Some s => (Ret s, st)
        | None => (Raise (Exn FileNotFoundError path), st)
        end.

(** [open(path, 'w')]: creates or truncates the file. *)
Definition open_w (path : string) : M unit :=
  λ st, match open_w_error host path with
        | Some e => (Raise e, st)
        | None =>
            (Ret tt, State (self_dict st) (net st) (stdout st) (<[path := ""]> (fs st)))
        end.

(** [f.write(s)] on the file opened at [path]. *)
Definition f_write (path : string) (s : string) : M unit :=
  λ st, (Ret tt,
         State (self_dict st) (net st) (stdout st)
           (<[path := default "" (fs st !! path) +:+ s]> (fs st))).

(** [f.write(s)] on a file opened at [path] without [encoding=]: the text
    is encoded by the locale's codec first, and nothing is written if that
    fails. *)
Definition f_write_locale (path : string) (s : string) : M unit :=
  match locale_encode_error host s with
  | Some e => raise e
  | None => f_write path s
  end.
End host.

Definition nl : string := String "010"%char "".
Definition indent8 : string := "        ".

(** ** [chatgpt_api.py] *)

(** The OpenAI SDK: building a client, and the chat-completion call, whose
    outcome may depend on the requests issued before it. *)
Record openai_sdk : Type :=
  { OpenAI_new : option string → res OpenAI;
    chat_create : list net_call → OpenAI → gmap string kwval → res ChatCompletion }.

Module chatgpt_api.

(** The text between the triple quotes of [LLMInterface.__init__]. *)
Definition instruction : string :=
  nl +:+ indent8 +:+
  "You are a competitive programmer. You will be given a problem statement, please implement solution in C++. The execution time and memory limit are also stated in the statement so be aware of the complexity of the program. Please wrap the code in ```cpp and ``` so that it is properly formatted."
  +:+ nl +:+ indent8.

Class LLMInterface (Text Meta : Type) : Type :=
  { call_llm : string → M (Text * Meta) }.

Definition LLMInterface__init__ : M unit :=
  setattr_self "prompt" (VStr instruction).

Definition generate_solution {Text Meta} {self : LLMInterface Text Meta}
    (problem_statement : string) : M (Text * Meta) :=
  let* prompt := getattr_self "prompt" in
  let* user_prompt := str_add prompt problem_statement in
  let* (response, meta) := call_llm user_prompt in
  ret (response, meta).

Section ExampleLLM.
Variable host : Host.
Variable sdk : openai_sdk.

(** [print(api_key)]: [None] prints as the word None. *)
Definition str_of_optional (o : option string) : string := default "None" o.

Definition ExampleLLM__init__ : M unit :=
  LLMInterface__init__ ;;;
  let* api_key := os_getenv host "OPENAI_API_KEY" in
  print (str_of_optional api_key) ;;;
  let* client := lift_res (OpenAI_new sdk api_key) in
  setattr_self "client" (VClient client).

(** [client.chat.completions.create] with keyword arguments [kwargs]. *)
Definition client_chat_completions_create (client : pyval)
    (kwargs : gmap string kwval) : M ChatCompletion :=
  match client with
  | VClient c =>
      λ st, (chat_create sdk (net st) c kwargs,
             State (self_dict st) (net st ++ [chat_completions_create c kwargs])
               (stdout st) (fs st))
  | _ => raise (Exn AttributeError "chat")
  end.

(** [l[0]]. *)
Definition index0 {A} (l : list A) : M A :=
  match l with
  | x :: _ => ret x
  | [] => raise (Exn IndexError "list index out of range")
  end.

Definition create_kwargs (user_prompt : string) : gmap string kwval :=
  {[ "model" := KStr "gpt-5";
     "messages" := KMessages [ {[ "role" := "user"; "content" := user_prompt ]} ];
     "reasoning_effort" := KStr "high" ]}.

Definition ExampleLLM_call_llm (user_prompt : string) : M (option string * string) :=
  let* client := getattr_self "client" in
  let* completion := client_chat_completions_create client (create_kwargs user_prompt) in
  let* choice := index0 (choices completion) in
  ret (message_content choice, completion_str completion).

#[export] Instance ExampleLLM : LLMInterface (option string) string :=
  { call_llm := ExampleLLM_call_llm }.

Definition statement_path : string :=
  "C:\Users\alexd\OneDrive\Documents\GitHub\CompetitveProgrammingLLM\Permutation\Permutation_Zip\statement.txt".

Definition output_filename : string := "permutation_gpt_solution.txt".

(** [f.write(response)] on the output file, which the script opens
    without [encoding=]: only a string can be written, and it goes through
    the locale's codec. *)
Definition f_write_optional (path : string) (response : option string) : M unit :=
  match response with
  | Some s => f_write_locale host path s
  | None => raise (Exn TypeError "write() argument must be str, not None")
  end.

(** The [__main__] block. *)
Definition main : M unit :=
  new_object ;;;
  ExampleLLM__init__ ;;;
  let* statement := read_file statement_path in
  let* (response, meta) := generate_solution statement in
  open_w host output_filename ;;;
  f_write_optional output_filename response ;;;
  print meta.
End ExampleLLM.

End chatgpt_api.

(** ** [gemini_api.py] *)

(** The Google SDK: [genai.configure], the [GenerativeModel] constructor and
    [generate_content], whose outcome may depend on the requests issued
    before it. *)
Record genai_sdk : Type :=
  { genai_configure : string → res unit;
    GenerativeModel_new : string → res GenerativeModel;
    model_generate_content :
      list net_call → GenerativeModel → string → gmap string Z → res GenerateContentResponse }.

Module gemini_api.

(** The text between the triple quotes of [LLMInterface.__init__]. *)
Definition instruction : string :=
  nl +:+ indent8 +:+
  "You are a competitive programmer. You will be given a problem statement, please implement solution in C++. The execution time and memory limit are also stated in the statement so be aware of the complexity of the program. Please wrap the code in ```cpp and ``` so that it is properly formatted."
  +:+ nl +:+ indent8.

Class LLMInterface (Text Meta : Type) : Type :=
  { call_llm : string → M (Text * Meta) }.

Definition LLMInterface__init__ : M unit :=
  setattr_self "prompt" (VStr instruction).

Definition generate_solution {Text Meta} {self : LLMInterface Text Meta}
    (problem_statement : string) : M (Text * Meta) :=
  let* prompt := getattr_self "prompt" in
  let* user_prompt := str_add prompt problem_statement in
  let* (response, meta) := call_llm user_prompt in
  ret (response, meta).

Section GeminiLLM.
Variable host : Host.
Variable sdk : genai_sdk.

(** [if not api_key: raise ValueError(...)]: [None] and the empty
    string are both falsy; past this line [api_key] is a non-empty
    string. *)
Definition require_api_key (api_key : option string) : M string :=
  match api_key with
  | Some key =>
      if String.eqb key ""
      then raise (Exn ValueError "GOOGLE_API_KEY not found in environment variables.")
      else ret key
  | None => raise (Exn ValueError "GOOGLE_API_KEY not found in environment variables.")
  end.

Definition GeminiLLM__init__ : M unit :=
  LLMInterface__init__ ;;;
  try_except
    (let* api_key := os_getenv host "GOOGLE_API_KEY" in
     let* api_key := require_api_key api_key in
     lift_res (genai_configure sdk api_key) ;;;
     let* model := lift_res (GenerativeModel_new sdk "gemini-2.5-pro") in
     setattr_self "model" (VModel model))
    (λ e,
     print ("Error during Gemini initialization: " +:+ exn_str e) ;;;
     setattr_self "model" VNone).

(** [model.generate_content(contents, request_options=...)]. *)
Definition self_model_generate_content (model : pyval) (contents : string)
    (request_options : gmap string Z) : M GenerateContentResponse :=
  match model with
  | VModel m =>
      λ st, (model_generate_content sdk (net st) m contents request_options,
             State (self_dict st)
               (net st ++ [generate_content m contents request_options])
               (stdout st) (fs st))
  | _ => raise (Exn AttributeError "generate_content")
  end.

(** The dictionary passed as [request_options]. *)
Definition request_options : gmap string Z := {[ "timeout" := 600 ]}.

Definition GeminiLLM_call_llm (user_prompt : string)
    : M (string * option GenerateContentResponse) :=
  let* model := getattr_self "model" in
  if negb (truthy model) then ret ("Error: Model not initialized.", None)
  else
    try_except
      (let* response :=
         self_model_generate_content model user_prompt request_options in
       let* solution_text := lift_res (text response) in
       ret (solution_text, Some response))
      (λ e,
       print ("An error occurred while calling the Gemini API: " +:+ exn_str e) ;;;
       ret ("Error: " +:+ exn_str e, None)).

#[export] Instance GeminiLLM : LLMInterface string (option GenerateContentResponse) :=
  { call_llm := GeminiLLM_call_llm }.

Definition problem_file_path : string :=
  "C:\Users\alexd\OneDrive\Documents\GitHub\CompetitveProgrammingLLM\Permutation\Permutation_Zip\statement.txt".

Definition output_filename : string := "permutation_gemini_solution.txt".

(** [print(meta)]. *)
Definition str_of_meta (meta : option GenerateContentResponse) : string :=
  match meta with
  | None => "None"
  | Some r => response_str r
  end.

(** [response and "Error:" not in response]. *)
Definition is_valid_response (response : string) : bool :=
  negb (String.eqb response "") && negb (contains "Error:" response).

(** The [__main__] block. *)
Definition main : M unit :=
  new_object ;;;
  GeminiLLM__init__ ;;;
  let* found := os_path_exists problem_file_path in
  (if negb found then
     print ("Error: The file '" +:+ problem_file_path +:+ "' was not found.") ;;;
     print "Please create the file with a problem statement or update the path in the script." ;;;
     open_w host problem_file_path ;;;
     f_write problem_file_path
       "This is a placeholder problem. Please replace it with a real one." ;;;
     print ("A placeholder file has been created at '" +:+ problem_file_path +:+ "'.")
   else ret tt) ;;;
  try_except
    (let* statement := read_file problem_file_path in
     print "Generating solution with Gemini..." ;;;
     let* (response, meta) := generate_solution statement in
     if is_valid_response response then
       open_w host output_filename ;;;
       f_write output_filename response ;;;
       print ("Solution successfully saved to " +:+ output_filename) ;;;
       print (nl +:+ "--- Metadata ---") ;;;
       print (str_of_meta meta)
     else
       print (nl +:+ "Failed to generate a valid solution.") ;;;
       print ("Response from API: " +:+ response))
    (λ e, print ("An unexpected error occurred: " +:+ exn_str e)).
End GeminiLLM.

End gemini_api.

(** ** Observing a command *)

(** The requests a command issued: those in [net] after it that were not
    there before. *)
Definition issued {A} (c : M A) (st : state) : list net_call :=
  drop (length (net st)) (net (c st).2).

(** The command only appends to the request log, at most [n] requests. *)
Definition issues_at_most (n : nat) {A} (c : M A) : Prop :=
  ∀ st, ∃ new, net (c st).2 = (net st ++ new)%list ∧ (length new ≤ n)%nat.

(** The command leaves the adapter's attributes as they are. *)
Definition keeps_self {A} (c : M A) : Prop :=
  ∀ st, self_dict (c st).2 = self_dict st.

(** The request carries the explicit 600-second timeout. *)
Definition timeout_600 (c : net_call) : Prop :=
  match c with
  | generate_content _ _ request_options => request_options !! "timeout" = Some 600
  | chat_completions_create _ _ => False
  end.

(** The request carries no explicit timeout. *)
Definition no_timeout (c : net_call) : Prop :=
  match c with
  | chat_completions_create _ kwargs => kwargs !! "timeout" = None
  | generate_content _ _ request_options => request_options !! "timeout" = None
  end.

(** A caller's use of an adapter: one of its two methods, on some text. *)
Inductive invocation : Type :=
  | generate_solution_with (problem_statement : string)
  | call_llm_with (user_prompt : string).

(** The state after one invocation; whether it returned or raised is the
    caller's business, the adapter is used again either way. *)
Definition ExampleLLM_invoke (sdk : openai_sdk) (i : invocation) (st : state) : state :=
  match i with
  | generate_solution_with s =>
      (chatgpt_api.generate_solution (self := chatgpt_api.ExampleLLM sdk) s st).2
  | call_llm_with p => (chatgpt_api.ExampleLLM_call_llm sdk p st).2
  end.

Definition GeminiLLM_invoke (sdk : genai_sdk) (i : invocation) (st : state) : state :=
  match i with
  | generate_solution_with s =>
      (gemini_api.generate_solution (self := gemini_api.GeminiLLM sdk) s st).2
  | call_llm_with p => (gemini_api.GeminiLLM_call_llm sdk p st).2
  end.

(** The state after a sequence of invocations, first to last. *)
Definition invoke_all (invoke : invocation → state → state)
    (l : list invocation) (st : state) : state :=
  foldl (λ st i, invoke i st) st l.

(** A mock [call_llm] that hands back the prompt it was given. *)
Definition echo_prompt (user_prompt : string) : M (string * unit) :=
  ret (user_prompt, tt).


(** The content of the file at [path], if there is one. *)
Definition file_at (path : string) (st : state) : option string := fs st !! path.

(** The command leaves one observable of the state as it is. *)
Definition keeps_field {B} (field : state → B) {A} (c : M A) : Prop :=
  ∀ st, field (c st).2 = field st.

(** The command raises nothing that [except Exception] would match. *)
Definition raises_no_Exception {A} (c : M A) : Prop :=
  ∀ st e, (c st).1 = Raise e → isinstance_Exception e = false.

(** ** Sample worlds

    Mock hosts and SDKs on which the statements below are exercised. *)

Definition host_no_key : Host :=
  {| environ := ∅; open_w_error := λ _, None; locale_encode_error := λ _, None |}.

Definition host_with_keys : Host :=
  {| environ := {[ "GOOGLE_API_KEY" := "g-key"; "OPENAI_API_KEY" := "o-key" ]};
     open_w_error := λ _, None;
     locale_encode_error := λ _, None |}.

Definition sample_statement : string := "Statement: return 1".

Definition st_empty : state := State ∅ [] [] ∅.

Definition st_with_statement : state :=
  State ∅ [] [] {[ gemini_api.problem_file_path := sample_statement ]}.

(** A Gemini mock that answers every request with [reply]. *)
Definition genai_replying (reply : res GenerateContentResponse) : genai_sdk :=
  {| genai_configure := λ _, Ret tt;
     GenerativeModel_new := λ name, Ret {| model_name := name |};
     model_generate_content := λ _ _ _ _, reply |}.

Definition response_plain : GenerateContentResponse :=
  {| text := Ret "```cpp int main() { return 1; } ```"; response_str := "response" |}.

(** A genuine solution that happens to print an error marker. *)
Definition response_mentioning_error : GenerateContentResponse :=
  {| text := Ret "```cpp int main() { std::cerr << 'Error: bad input'; } ```";
     response_str := "response" |}.

Definition deadline_exceeded : exn :=
  Exn (SDKError "DeadlineExceeded") "504 Deadline Exceeded".

Definition keyboard_interrupt : exn := Exn KeyboardInterrupt "".

(** The provider call is interrupted from the keyboard. *)
Definition genai_interrupted : genai_sdk := genai_replying (Raise keyboard_interrupt).

(** The provider answers with a plain solution. *)
Definition genai_answering : genai_sdk := genai_replying (Ret response_plain).

(** An OpenAI mock that answers every request with [reply]. *)
Definition openai_replying (reply : res ChatCompletion) : openai_sdk :=
  {| OpenAI_new := λ key, Ret {| client_api_key := key |};
     chat_create := λ _ _ _, reply |}.

Definition completion_plain : ChatCompletion :=
  {| choices := [ {| message_content := Some "```cpp int main() { return 1; } ```" |} ];
     completion_str := "ChatCompletion(...)" |}.

Definition connection_error : exn :=
  Exn (SDKError "APIConnectionError") "Connection error.".

(** The adapters as constructed in these worlds. *)
Definition ExampleLLM_ready (sdk : openai_sdk) : state :=
  (bind new_object (λ _, chatgpt_api.ExampleLLM__init__ host_with_keys sdk) st_empty).2.

Definition GeminiLLM_ready (sdk : genai_sdk) : state :=
  (bind new_object (λ _, gemini_api.GeminiLLM__init__ host_with_keys sdk) st_empty).2.

Definition GeminiLLM_degraded (sdk : genai_sdk) : state :=
  (bind new_object (λ _, gemini_api.GeminiLLM__init__ host_no_key sdk) st_empty).2.

(** Further worlds: a host that refuses every write, one that refuses only
    the Gemini output file, and provider answers with nothing usable. *)
Definition permission_denied : exn := Exn OSError "[Errno 13] Permission denied".


Definition host_output_locked : Host :=
  {| environ := {[ "GOOGLE_API_KEY" := "g-key"; "OPENAI_API_KEY" := "o-key" ]};
     open_w_error := λ path,
       if String.eqb path gemini_api.output_filename then Some permission_denied else None;
     locale_encode_error := λ _, None |}.

Definition host_empty_key : Host :=
  {| environ := {[ "GOOGLE_API_KEY" := "" ]};
     open_w_error := λ _, None;
     locale_encode_error := λ _, None |}.

Definition completion_no_choices : ChatCompletion :=
  {| choices := []; completion_str := "ChatCompletion(choices=[])" |}.

Definition completion_no_content : ChatCompletion :=
  {| choices := [ {| message_content := None |} ];
     completion_str := "ChatCompletion(content=None)" |}.

Definition blocked : exn := Exn ValueError "The response was blocked.".

Definition response_blocked : GenerateContentResponse :=
  {| text := Raise blocked; response_str := "response" |}.

(** A locale whose codec has no sign for less-or-equal, and an answer that
    uses it. *)
Definition unencodable : exn :=
  Exn UnicodeEncodeError "'charmap' codec can't encode character '\u2264'".

Definition host_narrow_locale : Host :=
  {| environ := {[ "GOOGLE_API_KEY" := "g-key"; "OPENAI_API_KEY" := "o-key" ]};
     open_w_error := λ _, None;
     locale_encode_error := λ s, if contains "≤" s then Some unencodable else None |}.

Definition completion_with_sign : ChatCompletion :=
  {| choices := [ {| message_content := Some "```cpp // n ≤ 10 ```" |} ];
     completion_str := "ChatCompletion(...)" |}.

Definition st_with_chatgpt_statement : state :=
  State ∅ [] [] {[ chatgpt_api.statement_path := sample_statement ]}.

(** A Gemini SDK whose [configure] fails. *)
Definition genai_unconfigurable : genai_sdk :=
  {| genai_configure := λ _, Raise (Exn (SDKError "ConfigError") "bad transport");
     GenerativeModel_new := λ name, Ret {| model_name := name |};
     model_generate_content := λ _ _ _ _, Ret response_plain |}.

(** An OpenAI SDK whose client constructor fails. *)
Definition openai_unbuildable : openai_sdk :=
  {| OpenAI_new := λ _, Raise (Exn (SDKError "OpenAIError") "The api_key client option must be set");
     chat_create := λ _ _ _, Ret completion_plain |}.

(** * Properties *)

(** ** Strings *)

Lemma prefix_app (n b : string) : String.prefix n (n +:+ b) = true.
Proof.
  induction n as [|c n IH]; simpl.
  - by destruct b.
  - destruct (Ascii.ascii_dec c c); [exact IH|congruence].
Qed.

Lemma prefix_inv (n h : string) :
  String.prefix n h = true → ∃ b, h = n +:+ b.
Proof.
  revert h. induction n as [|c n IH]; intros h Hp.
  - by exists h.
  - destruct h as [|d h]; simpl in Hp; [discriminate|].
    destruct (Ascii.ascii_dec c d) as [->|]; [|discriminate].
    destruct (IH h Hp) as [b ->]. by exists b.
Qed.

Lemma contains_prefix (n h : string) :
  String.prefix n h = true → contains n h = true.
Proof. intros Hp. destruct h; unfold contains; fold contains; by rewrite Hp. Qed.

Lemma contains_cons (n : string) (c : ascii) (h : string) :
  contains n h = true → contains n (String c h) = true.
Proof.
  intros Hc. change (String.prefix n (String c h) || contains n h = true).
  rewrite Hc. apply orb_true_r.
Qed.

(** [contains] is the substring test: it holds exactly when the needle
    occurs somewhere in the text. *)
Lemma contains_spec (n h : string) :
  contains n h = true ↔ ∃ a b, h = a +:+ n +:+ b.
Proof.
  split.
  - induction h as [|c h IH]; simpl; intros Hc.
    + destruct n; [by exists "", ""|discriminate].
    + apply orb_true_iff in Hc as [Hp|Hc].
      * apply (prefix_inv n (String c h)) in Hp as [b Hb]. by exists "", b.
      * destruct (IH Hc) as (a & b & ->). by exists (String c a), b.
  - intros (a & b & ->). induction a as [|c a IH].
    + change ("" +:+ n +:+ b) with (n +:+ b). apply contains_prefix, prefix_app.
    + apply (contains_cons n c (a +:+ n +:+ b)), IH.
Qed.

(** ** Commands that leave the adapter's attributes alone *)

Create HintDb keeps.

Lemma keeps_ret {A} (a : A) : keeps_self (ret a).
Proof. by intros st. Qed.

Lemma keeps_raise {A} (e : exn) : keeps_self (raise (A := A) e).
Proof. by intros st. Qed.

Lemma keeps_lift_res {A} (r : res A) : keeps_self (lift_res r).
Proof. by intros st. Qed.

Lemma keeps_print (s : string) : keeps_self (print s).
Proof. by intros st. Qed.

Lemma keeps_getattr (name : string) : keeps_self (getattr_self name).
Proof. intros st. unfold getattr_self. by destruct (self_dict st !! name). Qed.

Lemma keeps_str_add (v : pyval) (s : string) : keeps_self (str_add v s).
Proof. intros st. by destruct v. Qed.

Lemma keeps_bind {A B} (c : M A) (k : A → M B) :
  keeps_self c → (∀ a, keeps_self (k a)) → keeps_self (bind c k).
Proof.
  intros Hc Hk st. unfold bind. specialize (Hc st).
  destruct (c st) as [[a|e] st']; simpl in *; [|done].
  by rewrite Hk.
Qed.

Lemma keeps_try_except {A} (body : M A) (handler : exn → M A) :
  keeps_self body → (∀ e, keeps_self (handler e)) → keeps_self (try_except body handler).
Proof.
  intros Hb Hh st. unfold try_except. specialize (Hb st).
  destruct (body st) as [[a|e] st']; simpl in *; [done|].
  destruct (isinstance_Exception e); [|done]. by rewrite Hh.
Qed.

#[global] Hint Resolve keeps_ret keeps_raise keeps_lift_res keeps_print
  keeps_getattr keeps_str_add keeps_bind keeps_try_except : keeps.

Lemma keeps_index0 {A} (l : list A) : keeps_self (chatgpt_api.index0 l).
Proof. intros st. by destruct l. Qed.

Lemma keeps_chat_create (sdk : openai_sdk) (client : pyval) (kwargs : gmap string kwval) :
  keeps_self (chatgpt_api.client_chat_completions_create sdk client kwargs).
Proof. intros st. by destruct client. Qed.

Lemma keeps_generate_content (sdk : genai_sdk) (model : pyval) (contents : string)
    (opts : gmap string Z) :
  keeps_self (gemini_api.self_model_generate_content sdk model contents opts).
Proof. intros st. by destruct model. Qed.

#[global] Hint Resolve keeps_index0 keeps_chat_create keeps_generate_content : keeps.

Ltac keeps_step :=
  first [ apply keeps_bind; [|intros ?]
        | apply keeps_try_except; [|intros ?]
        | solve [auto with keeps] ].

Lemma keeps_ExampleLLM_call_llm (sdk : openai_sdk) (p : string) :
  keeps_self (chatgpt_api.ExampleLLM_call_llm sdk p).
Proof. unfold chatgpt_api.ExampleLLM_call_llm. repeat keeps_step. Qed.

Lemma keeps_GeminiLLM_call_llm (sdk : genai_sdk) (p : string) :
  keeps_self (gemini_api.GeminiLLM_call_llm sdk p).
Proof.
  unfold gemini_api.GeminiLLM_call_llm. keeps_step; [keeps_step|].
  destruct (negb _); repeat keeps_step.
Qed.

Lemma keeps_chatgpt_generate_solution {Text Meta}
    (self : chatgpt_api.LLMInterface Text Meta) (s : string) :
  (∀ p, keeps_self (chatgpt_api.call_llm p)) →
  keeps_self (chatgpt_api.generate_solution s).
Proof.
  intros Hcall. unfold chatgpt_api.generate_solution.
  do 3 keeps_step; [..|destruct a1]; auto with keeps.
Qed.

Lemma keeps_gemini_generate_solution {Text Meta}
    (self : gemini_api.LLMInterface Text Meta) (s : string) :
  (∀ p, keeps_self (gemini_api.call_llm p)) →
  keeps_self (gemini_api.generate_solution s).
Proof.
  intros Hcall. unfold gemini_api.generate_solution.
  do 3 keeps_step; [..|destruct a1]; auto with keeps.
Qed.

Lemma ExampleLLM_invoke_keeps (sdk : openai_sdk) (i : invocation) (st : state) :
  self_dict (ExampleLLM_invoke sdk i st) = self_dict st.
Proof.
  destruct i as [s|p]; simpl.
  - apply (keeps_chatgpt_generate_solution (chatgpt_api.ExampleLLM sdk)).
    apply keeps_ExampleLLM_call_llm.
  - apply keeps_ExampleLLM_call_llm.
Qed.

Lemma GeminiLLM_invoke_keeps (sdk : genai_sdk) (i : invocation) (st : state) :
  self_dict (GeminiLLM_invoke sdk i st) = self_dict st.
Proof.
  destruct i as [s|p]; simpl.
  - apply (keeps_gemini_generate_solution (gemini_api.GeminiLLM sdk)).
    apply keeps_GeminiLLM_call_llm.
  - apply keeps_GeminiLLM_call_llm.
Qed.

Lemma invoke_all_keeps (invoke : invocation → state → state) :
  (∀ i st, self_dict (invoke i st) = self_dict st) →
  ∀ l st, self_dict (invoke_all invoke l st) = self_dict st.
Proof.
  intros Hone l. induction l as [|i l IH]; intros st; [done|].
  unfold invoke_all in *. simpl. by rewrite IH.
Qed.

(** ** What construction establishes *)

Lemma ExampleLLM__init__prompt (host : Host) (sdk : openai_sdk) (st0 : state) :
  self_dict (chatgpt_api.ExampleLLM__init__ host sdk st0).2 !! "prompt"
  = Some (VStr chatgpt_api.instruction).
Proof.
  unfold chatgpt_api.ExampleLLM__init__, chatgpt_api.LLMInterface__init__,
    bind, setattr_self, os_getenv, ret, print, lift_res.
  cbn [fst snd self_dict net stdout fs].
  destruct (OpenAI_new sdk _); cbn [snd self_dict].
  - rewrite lookup_insert_ne by done. apply lookup_insert_eq.
  - apply lookup_insert_eq.
Qed.

Lemma GeminiLLM__init__prompt (host : Host) (sdk : genai_sdk) (st0 : state) :
  self_dict (gemini_api.GeminiLLM__init__ host sdk st0).2 !! "prompt"
  = Some (VStr gemini_api.instruction).
Proof.
  unfold gemini_api.GeminiLLM__init__, gemini_api.LLMInterface__init__,
    gemini_api.require_api_key, try_except, bind, setattr_self, os_getenv,
    ret, raise, print, lift_res.
  cbn [fst snd self_dict net stdout fs].
  destruct (environ host !! "GOOGLE_API_KEY") as [key|];
    [destruct (String.eqb key "")|];
    cbn [isinstance_Exception exn_class snd self_dict];
    try (rewrite lookup_insert_ne by done; apply lookup_insert_eq).
  destruct (genai_configure sdk key) as [[]|e];
    [destruct (GenerativeModel_new sdk _) as [m|e]|];
    try destruct (isinstance_Exception e); cbn [snd self_dict];
    first [apply lookup_insert_eq
          |rewrite lookup_insert_ne by done; apply lookup_insert_eq].
Qed.

(** With no credential in the environment, construction returns normally,
    prints one line, issues no request and leaves [self.model] at [None]. *)
Lemma GeminiLLM__init__no_key (host : Host) (sdk : genai_sdk) (st0 : state) :
  environ host !! "GOOGLE_API_KEY" = None →
  gemini_api.GeminiLLM__init__ host sdk st0
  = (Ret tt,
     State (<["model" := VNone]> (<["prompt" := VStr gemini_api.instruction]> (self_dict st0)))
       (net st0)
       (stdout st0 ++ ["Error during Gemini initialization: GOOGLE_API_KEY not found in environment variables."])
       (fs st0)).
Proof.
  intros Henv.
  unfold gemini_api.GeminiLLM__init__, gemini_api.LLMInterface__init__,
    try_except, bind, setattr_self, os_getenv, ret, print, lift_res.
  cbn [fst snd self_dict net stdout fs]. rewrite Henv.
  reflexivity.
Qed.

(** In the degraded state [call_llm] is a pure function of nothing: fixed
    result, state untouched. *)
Lemma GeminiLLM_call_llm_degraded (sdk : genai_sdk) (p : string) (st : state) :
  self_dict st !! "model" = Some VNone →
  gemini_api.GeminiLLM_call_llm sdk p st = (Ret ("Error: Model not initialized.", None), st).
Proof.
  intros Hm. unfold gemini_api.GeminiLLM_call_llm, bind, getattr_self.
  by rewrite Hm.
Qed.

(** ** The claims *)

(** The body of [generate_solution], once [self.prompt] is known. *)
Lemma chatgpt_generate_solution_unfold {Text Meta}
    (self : chatgpt_api.LLMInterface Text Meta) (S p : string) (st : state) :
  self_dict st !! "prompt" = Some (VStr p) →
  chatgpt_api.generate_solution S st = chatgpt_api.call_llm (p +:+ S) st.
Proof.
  intros Hp. unfold chatgpt_api.generate_solution, bind, getattr_self. rewrite Hp.
  unfold str_add, ret.
  by destruct (chatgpt_api.call_llm _ st) as [[[r m]|e] st'].
Qed.

Lemma gemini_generate_solution_unfold {Text Meta}
    (self : gemini_api.LLMInterface Text Meta) (S p : string) (st : state) :
  self_dict st !! "prompt" = Some (VStr p) →
  gemini_api.generate_solution S st = gemini_api.call_llm (p +:+ S) st.
Proof.
  intros Hp. unfold gemini_api.generate_solution, bind, getattr_self. rewrite Hp.
  unfold str_add, ret.
  by destruct (gemini_api.call_llm _ st) as [[[r m]|e] st'].
Qed.

(** C1.  [generate_solution] hands [call_llm] the instruction followed by
    the whole problem statement and returns whatever [call_llm] does, result
    and state, untouched; this for any [call_llm] behind the interface, in
    both files. *)
Theorem C1_generate_solution_delegates
    {TA MA} (A : chatgpt_api.LLMInterface TA MA)
    {TB MB} (B : gemini_api.LLMInterface TB MB)
    (S : string) (stA stB : state) :
  self_dict stA !! "prompt" = Some (VStr chatgpt_api.instruction) →
  self_dict stB !! "prompt" = Some (VStr gemini_api.instruction) →
  chatgpt_api.generate_solution S stA
    = chatgpt_api.call_llm (chatgpt_api.instruction +:+ S) stA
  ∧ gemini_api.generate_solution S stB
    = gemini_api.call_llm (gemini_api.instruction +:+ S) stB.
Proof.
  intros HA HB. split.
  - by apply chatgpt_generate_solution_unfold.
  - by apply gemini_generate_solution_unfold.
Qed.

Lemma C1_generate_solution_delegates_witness :
  let A := chatgpt_api.ExampleLLM (openai_replying (Ret completion_plain)) in
  let B := gemini_api.GeminiLLM (genai_replying (Ret response_plain)) in
  let stA := ExampleLLM_ready (openai_replying (Ret completion_plain)) in
  let stB := GeminiLLM_ready (genai_replying (Ret response_plain)) in
  (self_dict stA !! "prompt" = Some (VStr chatgpt_api.instruction)
   ∧ self_dict stB !! "prompt" = Some (VStr gemini_api.instruction))
  ∧ (chatgpt_api.generate_solution (self := A) sample_statement stA
       = chatgpt_api.call_llm (chatgpt_api.instruction +:+ sample_statement) stA
     ∧ gemini_api.generate_solution (self := B) sample_statement stB
       = gemini_api.call_llm (gemini_api.instruction +:+ sample_statement) stB).
Proof.
  intros A B stA stB.
  assert (self_dict stA !! "prompt" = Some (VStr chatgpt_api.instruction)) as HA
    by (vm_compute; reflexivity).
  assert (self_dict stB !! "prompt" = Some (VStr gemini_api.instruction)) as HB
    by (vm_compute; reflexivity).
  split; [by split|].
  exact (C1_generate_solution_delegates A B sample_statement stA stB HA HB).
Defined.

(** C2.  When [GOOGLE_API_KEY] is absent, constructing [GeminiLLM] returns
    normally and issues no request; from then on, whatever the caller has
    invoked in between, [call_llm] returns the fixed error text (which
    contains the marker) with [None] as metadata and changes nothing: no
    request is ever issued. *)
Theorem C2_missing_credential_degrades
    (host : Host) (sdk : genai_sdk) (st0 : state)
    (earlier : list invocation) (user_prompt : string) :
  environ host !! "GOOGLE_API_KEY" = None →
  let built := gemini_api.GeminiLLM__init__ host sdk st0 in
  let st := invoke_all (GeminiLLM_invoke sdk) earlier built.2 in
  built.1 = Ret tt
  ∧ self_dict built.2 !! "model" = Some VNone
  ∧ net st = net st0
  ∧ gemini_api.GeminiLLM_call_llm sdk user_prompt st
    = (Ret ("Error: Model not initialized.", None), st)
  ∧ contains "Error:" "Error: Model not initialized." = true.
Proof.
  intros Henv built st.
  assert (built.1 = Ret tt ∧ self_dict built.2 !! "model" = Some VNone
          ∧ net built.2 = net st0) as (Hret & Hmodel & Hnet).
  { subst built. rewrite (GeminiLLM__init__no_key host sdk st0 Henv).
    cbn [fst snd self_dict net]. by rewrite lookup_insert_eq. }
  assert (∀ l s, self_dict s !! "model" = Some VNone →
            net (invoke_all (GeminiLLM_invoke sdk) l s) = net s) as Hquiet.
  { induction l as [|i l IH]; intros s Hs; [done|].
    assert (GeminiLLM_invoke sdk i s = s) as Hi.
    { destruct i as [problem|p]; cbn [GeminiLLM_invoke].
      - unfold gemini_api.generate_solution, bind, getattr_self.
        destruct (self_dict s !! "prompt") as [v|]; [|done].
        destruct v; try done. unfold str_add, ret.
        change (gemini_api.call_llm ?x) with (gemini_api.GeminiLLM_call_llm sdk x).
        by rewrite GeminiLLM_call_llm_degraded.
      - by rewrite GeminiLLM_call_llm_degraded. }
    unfold invoke_all in *. cbn [foldl]. rewrite Hi. by apply IH. }
  repeat split; try done.
  - subst st. by rewrite Hquiet.
  - apply GeminiLLM_call_llm_degraded. subst st.
    by rewrite (invoke_all_keeps _ (GeminiLLM_invoke_keeps sdk)).
Qed.

Lemma C2_missing_credential_degrades_witness :
  let sdk := genai_replying (Ret response_plain) in
  let built := gemini_api.GeminiLLM__init__ host_no_key sdk st_empty in
  let st := invoke_all (GeminiLLM_invoke sdk)
              [generate_solution_with sample_statement; call_llm_with "again"] built.2 in
  environ host_no_key !! "GOOGLE_API_KEY" = None
  ∧ built.1 = Ret tt
  ∧ self_dict built.2 !! "model" = Some VNone
  ∧ net st = net st_empty
  ∧ gemini_api.GeminiLLM_call_llm sdk sample_statement st
    = (Ret ("Error: Model not initialized.", None), st)
  ∧ contains "Error:" "Error: Model not initialized." = true.
Proof.
  intros sdk built st. split; [reflexivity|].
  exact (C2_missing_credential_degrades host_no_key sdk st_empty
           [generate_solution_with sample_statement; call_llm_with "again"]
           sample_statement eq_refl).
Defined.

(** [call_llm] on an adapter that holds a model: one request goes out, and
    the three outcomes (text read, provider raised, [text] raised) are told
    apart; an error is turned into a return only if [except Exception]
    matches it. *)
Lemma GeminiLLM_call_llm_ready (sdk : genai_sdk) (p : string) (st : state)
    (m : GenerativeModel) :
  self_dict st !! "model" = Some (VModel m) →
  let st1 := State (self_dict st)
               (net st ++ [generate_content m p gemini_api.request_options])
               (stdout st) (fs st) in
  let on_error (e : exn) : res (string * option GenerateContentResponse) * state :=
    if isinstance_Exception e
    then (Ret ("Error: " +:+ exn_str e, None),
          State (self_dict st)
            (net st ++ [generate_content m p gemini_api.request_options])
            (stdout st ++ ["An error occurred while calling the Gemini API: " +:+ exn_str e])
            (fs st))
    else (Raise e, st1) in
  gemini_api.GeminiLLM_call_llm sdk p st
  = match model_generate_content sdk (net st) m p gemini_api.request_options with
    | Ret r =>
        match text r with
        | Ret t => (Ret (t, Some r), st1)
        | Raise e => on_error e
        end
    | Raise e => on_error e
    end.
Proof.
  intros Hm st1 on_error. subst st1 on_error.
  unfold gemini_api.GeminiLLM_call_llm, bind, getattr_self. rewrite Hm.
  cbn [truthy negb]. unfold try_except, bind, gemini_api.self_model_generate_content.
  destruct (model_generate_content sdk (net st) m p _) as [r|e].
  - unfold lift_res. destruct (text r) as [t|e]; [done|].
    by destruct (isinstance_Exception e).
  - by destruct (isinstance_Exception e).
Qed.

(** C3, as amended.  When the provider call raises [e] on an adapter that
    holds a model: if [e] is an instance of [Exception], [call_llm] returns
    the text [Error: ] followed by [str(e)], with [None] as metadata;
    otherwise ([KeyboardInterrupt], [SystemExit], [GeneratorExit]) the
    [except Exception] clause does not match and [e] reaches the caller. *)
Theorem C3_exceptions_caught_by_class
    (sdk : genai_sdk) (user_prompt : string) (st : state)
    (m : GenerativeModel) (e : exn) :
  self_dict st !! "model" = Some (VModel m) →
  model_generate_content sdk (net st) m user_prompt gemini_api.request_options = Raise e →
  (gemini_api.GeminiLLM_call_llm sdk user_prompt st).1
  = if isinstance_Exception e
    then Ret ("Error: " +:+ exn_str e, None)
    else Raise e.
Proof.
  intros Hm He. rewrite (GeminiLLM_call_llm_ready sdk user_prompt st m Hm).
  cbv zeta. rewrite He. by destruct (isinstance_Exception e).
Qed.

Lemma C3_exceptions_caught_by_class_witness :
  let sdk := genai_replying (Raise deadline_exceeded) in
  let st := GeminiLLM_ready sdk in
  let m := {| model_name := "gemini-2.5-pro" |} in
  (self_dict st !! "model" = Some (VModel m)
   ∧ model_generate_content sdk (net st) m sample_statement gemini_api.request_options
     = Raise deadline_exceeded)
  ∧ (gemini_api.GeminiLLM_call_llm sdk sample_statement st).1
    = Ret ("Error: 504 Deadline Exceeded", None).
Proof.
  intros sdk st m.
  assert (self_dict st !! "model" = Some (VModel m)) as Hm by (vm_compute; reflexivity).
  split; [by split|].
  exact (C3_exceptions_caught_by_class sdk sample_statement st m deadline_exceeded
           Hm eq_refl).
Defined.

(** C3 as stated fails: an interrupt raised inside the provider call is not
    an [Exception], so [call_llm] lets it through to its caller. *)
Lemma C3_counterexample :
  model_generate_content genai_interrupted (net (GeminiLLM_ready genai_interrupted))
    {| model_name := "gemini-2.5-pro" |} sample_statement gemini_api.request_options
  = Raise keyboard_interrupt
  ∧ (gemini_api.GeminiLLM_call_llm genai_interrupted sample_statement
       (GeminiLLM_ready genai_interrupted)).1
    = Raise keyboard_interrupt.
Proof. split; vm_compute; reflexivity. Qed.

(** C4.  When the provider call raises [e] on a constructed [ExampleLLM],
    [call_llm] raises that same [e] to its caller; no value is returned in
    its place. *)
Theorem C4_provider_error_propagates
    (sdk : openai_sdk) (user_prompt : string) (st : state) (c : OpenAI) (e : exn) :
  self_dict st !! "client" = Some (VClient c) →
  chat_create sdk (net st) c (chatgpt_api.create_kwargs user_prompt) = Raise e →
  (chatgpt_api.ExampleLLM_call_llm sdk user_prompt st).1 = Raise e
  ∧ ∀ result, (chatgpt_api.ExampleLLM_call_llm sdk user_prompt st).1 ≠ Ret result.
Proof.
  intros Hc He.
  assert ((chatgpt_api.ExampleLLM_call_llm sdk user_prompt st).1 = Raise e) as Hr.
  { unfold chatgpt_api.ExampleLLM_call_llm, bind, getattr_self. rewrite Hc.
    unfold chatgpt_api.client_chat_completions_create. by rewrite He. }
  split; [done|]. intros result. by rewrite Hr.
Qed.

Lemma C4_provider_error_propagates_witness :
  let sdk := openai_replying (Raise connection_error) in
  let st := ExampleLLM_ready sdk in
  let c := {| client_api_key := Some "o-key" |} in
  (self_dict st !! "client" = Some (VClient c)
   ∧ chat_create sdk (net st) c (chatgpt_api.create_kwargs sample_statement)
     = Raise connection_error)
  ∧ (chatgpt_api.ExampleLLM_call_llm sdk sample_statement st).1 = Raise connection_error
  ∧ ∀ result, (chatgpt_api.ExampleLLM_call_llm sdk sample_statement st).1 ≠ Ret result.
Proof.
  intros sdk st c.
  assert (self_dict st !! "client" = Some (VClient c)) as Hc by (vm_compute; reflexivity).
  split; [by split|].
  exact (C4_provider_error_propagates sdk sample_statement st c connection_error
           Hc eq_refl).
Defined.

(** ** Requests issued by one [call_llm] *)

Lemma issued_app {A} (c : M A) (st : state) (new : list net_call) :
  net (c st).2 = (net st ++ new)%list → issued c st = new.
Proof. intros Hnet. unfold issued. rewrite Hnet. apply drop_app_length. Qed.

Lemma issued_nil {A} (c : M A) (st : state) :
  net (c st).2 = net st → issued c st = [].
Proof. intros Hnet. apply issued_app. by rewrite app_nil_r. Qed.

Lemma ExampleLLM_call_llm_ready (sdk : openai_sdk) (p : string) (st : state) (c : OpenAI) :
  self_dict st !! "client" = Some (VClient c) →
  let st1 := State (self_dict st)
               (net st ++ [chat_completions_create c (chatgpt_api.create_kwargs p)])
               (stdout st) (fs st) in
  chatgpt_api.ExampleLLM_call_llm sdk p st
  = match chat_create sdk (net st) c (chatgpt_api.create_kwargs p) with
    | Ret completion =>
        match choices completion with
        | choice :: _ => (Ret (message_content choice, completion_str completion), st1)
        | [] => (Raise (Exn IndexError "list index out of range"), st1)
        end
    | Raise e => (Raise e, st1)
    end.
Proof.
  intros Hc st1. subst st1.
  unfold chatgpt_api.ExampleLLM_call_llm, bind, getattr_self. rewrite Hc.
  unfold chatgpt_api.client_chat_completions_create.
  destruct (chat_create sdk (net st) c _) as [completion|e]; [|done].
  by destruct (choices completion).
Qed.

(** An [ExampleLLM.call_llm] issues its one request if [self.client] is a
    client, and none otherwise. *)
Lemma ExampleLLM_call_llm_issued (sdk : openai_sdk) (p : string) (st : state) :
  issued (chatgpt_api.ExampleLLM_call_llm sdk p) st
  = match self_dict st !! "client" with
    | Some (VClient c) => [chat_completions_create c (chatgpt_api.create_kwargs p)]
    | _ => []
    end.
Proof.
  destruct (self_dict st !! "client") as [v|] eqn:Hc.
  - destruct v as [|s|c|m];
      try (apply issued_nil;
           unfold chatgpt_api.ExampleLLM_call_llm, bind, getattr_self;
           by rewrite Hc).
    apply issued_app. rewrite (ExampleLLM_call_llm_ready sdk p st c Hc). cbv zeta.
    destruct (chat_create sdk (net st) c _) as [completion|e]; [|done].
    by destruct (choices completion).
  - apply issued_nil.
    unfold chatgpt_api.ExampleLLM_call_llm, bind, getattr_self. by rewrite Hc.
Qed.

(** A [GeminiLLM.call_llm] issues its one request if [self.model] is a
    model, and none otherwise. *)
Lemma GeminiLLM_call_llm_issued (sdk : genai_sdk) (p : string) (st : state) :
  issued (gemini_api.GeminiLLM_call_llm sdk p) st
  = match self_dict st !! "model" with
    | Some (VModel m) => [generate_content m p gemini_api.request_options]
    | _ => []
    end.
Proof.
  destruct (self_dict st !! "model") as [v|] eqn:Hm.
  - destruct v as [|s|c|m].
    + apply issued_nil. by rewrite GeminiLLM_call_llm_degraded.
    + apply issued_nil.
      unfold gemini_api.GeminiLLM_call_llm, bind, getattr_self. rewrite Hm.
      cbn [truthy]. destruct (negb (negb _)); [done|].
      unfold try_except, bind, gemini_api.self_model_generate_content, raise.
      by cbn [isinstance_Exception exn_class].
    + apply issued_nil.
      unfold gemini_api.GeminiLLM_call_llm, bind, getattr_self. rewrite Hm.
      cbn [truthy negb].
      unfold try_except, bind, gemini_api.self_model_generate_content, raise.
      by cbn [isinstance_Exception exn_class].
    + apply issued_app. rewrite (GeminiLLM_call_llm_ready sdk p st m Hm). cbv zeta.
      destruct (model_generate_content sdk (net st) m p _) as [r|e].
      * destruct (text r) as [t|e]; [done|]. by destruct (isinstance_Exception e).
      * by destruct (isinstance_Exception e).
  - apply issued_nil.
    unfold gemini_api.GeminiLLM_call_llm, bind, getattr_self. by rewrite Hm.
Qed.

(** Whatever the state, the requests one [call_llm] issues all carry the
    timeout (Gemini) or carry none (OpenAI). *)
Lemma issued_timeouts
    (sdkA : openai_sdk) (sdkB : genai_sdk) (user_prompt : string) (stA stB : state) :
  Forall timeout_600 (issued (gemini_api.GeminiLLM_call_llm sdkB user_prompt) stB)
  ∧ Forall no_timeout (issued (chatgpt_api.ExampleLLM_call_llm sdkA user_prompt) stA).
Proof.
  rewrite GeminiLLM_call_llm_issued, ExampleLLM_call_llm_issued. split.
  - destruct (self_dict stB !! "model") as [[|s|c|m]|];
      [constructor|constructor|constructor| |constructor].
    constructor; [|constructor]. cbn [timeout_600].
    unfold gemini_api.request_options. apply lookup_singleton_eq.
  - destruct (self_dict stA !! "client") as [[|s|c|m]|];
      [constructor|constructor| |constructor|constructor].
    constructor; [|constructor]. cbn [no_timeout].
    unfold chatgpt_api.create_kwargs.
    rewrite !lookup_insert_ne by done. by apply lookup_singleton_ne.
Qed.

(** C5.  On a constructed [GeminiLLM] that holds a model, [call_llm] sends
    exactly one request, and that request goes out with [request_options]
    whose [timeout] is 600; on a constructed [ExampleLLM], [call_llm] sends
    exactly one request, and it has no [timeout] among its keyword
    arguments.  In any state at all, every request a [GeminiLLM.call_llm]
    issues carries the 600-second timeout and every request an
    [ExampleLLM.call_llm] issues carries none. *)
Theorem C5_timeout_configuration
    (sdkA : openai_sdk) (sdkB : genai_sdk) (user_prompt : string) (stA stB : state)
    (c : OpenAI) (m : GenerativeModel) :
  self_dict stA !! "client" = Some (VClient c) →
  self_dict stB !! "model" = Some (VModel m) →
  (∃ request_options,
     issued (gemini_api.GeminiLLM_call_llm sdkB user_prompt) stB
     = [generate_content m user_prompt request_options]
     ∧ request_options !! "timeout" = Some 600)
  ∧ (∃ kwargs,
       issued (chatgpt_api.ExampleLLM_call_llm sdkA user_prompt) stA
       = [chat_completions_create c kwargs]
       ∧ kwargs !! "timeout" = None)
  ∧ (∀ st, Forall timeout_600 (issued (gemini_api.GeminiLLM_call_llm sdkB user_prompt) st))
  ∧ (∀ st, Forall no_timeout (issued (chatgpt_api.ExampleLLM_call_llm sdkA user_prompt) st)).
Proof.
  intros Hc Hm. split; [|split; [|split]].
  - exists gemini_api.request_options. split.
    + by rewrite GeminiLLM_call_llm_issued, Hm.
    + unfold gemini_api.request_options. apply lookup_singleton_eq.
  - exists (chatgpt_api.create_kwargs user_prompt). split.
    + by rewrite ExampleLLM_call_llm_issued, Hc.
    + unfold chatgpt_api.create_kwargs.
      rewrite !lookup_insert_ne by done. by apply lookup_singleton_ne.
  - intros st. apply (issued_timeouts sdkA sdkB user_prompt stA st).
  - intros st. apply (issued_timeouts sdkA sdkB user_prompt st stB).
Qed.

Lemma C5_timeout_configuration_witness :
  let sdkA := openai_replying (Ret completion_plain) in
  let sdkB := genai_replying (Ret response_plain) in
  let stA := ExampleLLM_ready sdkA in
  let stB := GeminiLLM_ready sdkB in
  let c := {| client_api_key := Some "o-key" |} in
  let m := {| model_name := "gemini-2.5-pro" |} in
  (self_dict stA !! "client" = Some (VClient c)
   ∧ self_dict stB !! "model" = Some (VModel m))
  ∧ (∃ request_options,
       issued (gemini_api.GeminiLLM_call_llm sdkB sample_statement) stB
       = [generate_content m sample_statement request_options]
       ∧ request_options !! "timeout" = Some 600)
  ∧ (∃ kwargs,
       issued (chatgpt_api.ExampleLLM_call_llm sdkA sample_statement) stA
       = [chat_completions_create c kwargs]
       ∧ kwargs !! "timeout" = None)
  ∧ (∀ st, Forall timeout_600
             (issued (gemini_api.GeminiLLM_call_llm sdkB sample_statement) st))
  ∧ (∀ st, Forall no_timeout
             (issued (chatgpt_api.ExampleLLM_call_llm sdkA sample_statement) st)).
Proof.
  intros sdkA sdkB stA stB c m.
  assert (self_dict stA !! "client" = Some (VClient c)) as Hc by (vm_compute; reflexivity).
  assert (self_dict stB !! "model" = Some (VModel m)) as Hm by (vm_compute; reflexivity).
  split; [by split|].
  exact (C5_timeout_configuration sdkA sdkB sample_statement stA stB c m Hc Hm).
Defined.

(** ** Requests issued by a whole run *)

Lemma quiet_same_net {A} (c : M A) :
  (∀ st, net (c st).2 = net st) → issues_at_most 0 c.
Proof. intros Hc st. exists []. by rewrite app_nil_r, Hc. Qed.

Lemma at_most_weaken {A} (n n' : nat) (c : M A) :
  (n ≤ n')%nat → issues_at_most n c → issues_at_most n' c.
Proof. intros Hle Hc st. destruct (Hc st) as (new & ? & ?). exists new. split; [done|lia]. Qed.

Lemma at_most_bind {A B} (n n' : nat) (c : M A) (k : A → M B) :
  issues_at_most n c → (∀ a, issues_at_most n' (k a)) →
  issues_at_most (n + n') (bind c k).
Proof.
  intros Hc Hk st. unfold bind. destruct (Hc st) as (new & Hnet & Hlen).
  destruct (c st) as [[a|e] st']; cbn [snd] in *.
  - destruct (Hk a st') as (new' & Hnet' & Hlen').
    exists (new ++ new')%list. rewrite Hnet', Hnet, app_assoc, length_app.
    split; [done|lia].
  - exists new. split; [done|lia].
Qed.

Lemma at_most_try_except {A} (n n' : nat) (body : M A) (handler : exn → M A) :
  issues_at_most n body → (∀ e, issues_at_most n' (handler e)) →
  issues_at_most (n + n') (try_except body handler).
Proof.
  intros Hb Hh st. unfold try_except. destruct (Hb st) as (new & Hnet & Hlen).
  destruct (body st) as [[a|e] st']; cbn [snd] in *.
  - exists new. split; [done|lia].
  - destruct (isinstance_Exception e).
    + destruct (Hh e st') as (new' & Hnet' & Hlen').
      exists (new ++ new')%list. rewrite Hnet', Hnet, app_assoc, length_app.
      split; [done|lia].
    + exists new. split; [done|lia].
Qed.

Lemma quiet_ret {A} (a : A) : issues_at_most 0 (ret a).
Proof. by apply quiet_same_net. Qed.

Lemma quiet_raise {A} (e : exn) : issues_at_most 0 (raise (A := A) e).
Proof. by apply quiet_same_net. Qed.

Lemma quiet_lift_res {A} (r : res A) : issues_at_most 0 (lift_res r).
Proof. by apply quiet_same_net. Qed.

Lemma quiet_print (s : string) : issues_at_most 0 (print s).
Proof. by apply quiet_same_net. Qed.

Lemma quiet_setattr (name : string) (v : pyval) : issues_at_most 0 (setattr_self name v).
Proof. by apply quiet_same_net. Qed.

Lemma quiet_getattr (name : string) : issues_at_most 0 (getattr_self name).
Proof.
  apply quiet_same_net. intros st. unfold getattr_self.
  by destruct (self_dict st !! name).
Qed.

Lemma quiet_new_object : issues_at_most 0 new_object.
Proof. by apply quiet_same_net. Qed.

Lemma quiet_str_add (v : pyval) (s : string) : issues_at_most 0 (str_add v s).
Proof. apply quiet_same_net. intros st. by destruct v. Qed.

Lemma quiet_os_getenv (host : Host) (name : string) : issues_at_most 0 (os_getenv host name).
Proof. by apply quiet_same_net. Qed.

Lemma quiet_os_path_exists (path : string) : issues_at_most 0 (os_path_exists path).
Proof. by apply quiet_same_net. Qed.

Lemma quiet_read_file (path : string) : issues_at_most 0 (read_file path).
Proof.
  apply quiet_same_net. intros st. unfold read_file. by destruct (fs st !! path).
Qed.

Lemma quiet_open_w (host : Host) (path : string) : issues_at_most 0 (open_w host path).
Proof.
  apply quiet_same_net. intros st. unfold open_w.
  by destruct (open_w_error host path).
Qed.

Lemma quiet_f_write (path s : string) : issues_at_most 0 (f_write path s).
Proof. by apply quiet_same_net. Qed.

Lemma quiet_f_write_locale (host : Host) (path s : string) :
  issues_at_most 0 (f_write_locale host path s).
Proof.
  unfold f_write_locale.
  destruct (locale_encode_error host s); [apply quiet_raise|apply quiet_f_write].
Qed.

Lemma quiet_f_write_optional (host : Host) (path : string) (response : option string) :
  issues_at_most 0 (chatgpt_api.f_write_optional host path response).
Proof. destruct response; [apply quiet_f_write_locale|apply quiet_raise]. Qed.

Lemma quiet_require_api_key (api_key : option string) :
  issues_at_most 0 (gemini_api.require_api_key api_key).
Proof.
  destruct api_key as [key|]; cbn [gemini_api.require_api_key];
    [destruct (String.eqb key "")|]; auto using @quiet_raise, @quiet_ret.
Qed.

Create HintDb quiet.

#[global] Hint Resolve quiet_ret quiet_raise quiet_lift_res quiet_print quiet_setattr
  quiet_getattr quiet_new_object quiet_str_add quiet_os_getenv quiet_os_path_exists
  quiet_read_file quiet_open_w quiet_f_write quiet_f_write_optional
  quiet_require_api_key : quiet.

(** Splits a sequence, a [try] or a branch whose parts issue nothing. *)
Ltac quiet_step :=
  first [ apply (at_most_bind 0 0); [|intros ?]
        | apply (at_most_try_except 0 0); [|intros ?]
        | solve [auto with quiet]
        | match goal with |- issues_at_most _ (if ?b then _ else _) => destruct b end
        | match goal with |- issues_at_most _ (match ?x with (_, _) => _ end) =>
            destruct x
          end ].

Lemma quiet_ExampleLLM__init__ (host : Host) (sdk : openai_sdk) :
  issues_at_most 0 (chatgpt_api.ExampleLLM__init__ host sdk).
Proof.
  unfold chatgpt_api.ExampleLLM__init__, chatgpt_api.LLMInterface__init__.
  repeat quiet_step.
Qed.

Lemma quiet_GeminiLLM__init__ (host : Host) (sdk : genai_sdk) :
  issues_at_most 0 (gemini_api.GeminiLLM__init__ host sdk).
Proof.
  unfold gemini_api.GeminiLLM__init__, gemini_api.LLMInterface__init__.
  repeat quiet_step.
Qed.

Lemma at_most_ExampleLLM_call_llm (sdk : openai_sdk) (p : string) :
  issues_at_most 1 (chatgpt_api.ExampleLLM_call_llm sdk p).
Proof.
  intros st. exists (issued (chatgpt_api.ExampleLLM_call_llm sdk p) st). split.
  - unfold issued.
    assert (∃ new, net (chatgpt_api.ExampleLLM_call_llm sdk p st).2 = (net st ++ new)%list)
      as [new Hnew]; [|by rewrite Hnew, drop_app_length].
    unfold chatgpt_api.ExampleLLM_call_llm, bind, getattr_self.
    destruct (self_dict st !! "client") as [[|s|c|m]|];
      try (exists []; by rewrite app_nil_r).
    unfold chatgpt_api.client_chat_completions_create.
    destruct (chat_create sdk (net st) c _) as [completion|e]; [|by eexists].
    destruct (choices completion); by eexists.
  - rewrite ExampleLLM_call_llm_issued.
    destruct (self_dict st !! "client") as [[|s|c|m]|]; cbn [length]; lia.
Qed.

Lemma at_most_GeminiLLM_call_llm (sdk : genai_sdk) (p : string) :
  issues_at_most 1 (gemini_api.GeminiLLM_call_llm sdk p).
Proof.
  unfold gemini_api.GeminiLLM_call_llm.
  apply (at_most_bind 0 1); [auto with quiet|]. intros model.
  destruct (negb (truthy model)); [apply (at_most_weaken 0); [lia|auto with quiet]|].
  apply (at_most_try_except 1 0); [|intros e; repeat quiet_step].
  apply (at_most_bind 1 0); [|intros r; repeat quiet_step].
  destruct model as [|s|c|m]; cbn [gemini_api.self_model_generate_content];
    try (apply (at_most_weaken 0); [lia|solve [auto with quiet]]).
  intros st. eexists. split; [reflexivity|]. cbn [length]. lia.
Qed.

Lemma at_most_chatgpt_main (host : Host) (sdk : openai_sdk) :
  issues_at_most 1 (chatgpt_api.main host sdk).
Proof.
  unfold chatgpt_api.main.
  apply (at_most_bind 0 1); [auto with quiet|]. intros _.
  apply (at_most_bind 0 1); [apply quiet_ExampleLLM__init__|]. intros _.
  apply (at_most_bind 0 1); [auto with quiet|]. intros statement.
  apply (at_most_bind 1 0); [|intros [response meta]; repeat quiet_step].
  unfold chatgpt_api.generate_solution.
  apply (at_most_bind 0 1); [auto with quiet|]. intros prompt.
  apply (at_most_bind 0 1); [auto with quiet|]. intros user_prompt.
  apply (at_most_bind 1 0); [|intros [response meta]; auto with quiet].
  apply at_most_ExampleLLM_call_llm.
Qed.

Lemma at_most_gemini_main (host : Host) (sdk : genai_sdk) :
  issues_at_most 1 (gemini_api.main host sdk).
Proof.
  unfold gemini_api.main.
  apply (at_most_bind 0 1); [auto with quiet|]. intros _.
  apply (at_most_bind 0 1); [apply quiet_GeminiLLM__init__|]. intros _.
  apply (at_most_bind 0 1); [auto with quiet|]. intros found.
  apply (at_most_bind 0 1); [repeat quiet_step|]. intros _.
  apply (at_most_try_except 1 0); [|intros e; auto with quiet].
  apply (at_most_bind 0 1); [auto with quiet|]. intros statement.
  apply (at_most_bind 0 1); [auto with quiet|]. intros _.
  apply (at_most_bind 1 0); [|intros [response meta]; repeat quiet_step].
  unfold gemini_api.generate_solution.
  apply (at_most_bind 0 1); [auto with quiet|]. intros prompt.
  apply (at_most_bind 0 1); [auto with quiet|]. intros user_prompt.
  apply (at_most_bind 1 0); [|intros [response meta]; auto with quiet].
  apply at_most_GeminiLLM_call_llm.
Qed.

Lemma at_most_issued {A} (n : nat) (c : M A) (st : state) :
  issues_at_most n c → (length (issued c st) ≤ n)%nat.
Proof.
  intros Hc. destruct (Hc st) as (new & Hnet & Hlen).
  by rewrite (issued_app c st new Hnet).
Qed.

(** C6, as amended.  On constructed adapters one [call_llm] issues exactly
    one request in [ExampleLLM], and in [GeminiLLM] exactly one if the
    adapter holds a model and none if it is degraded; whatever the provider
    answers, there is no second request.  A whole run of either entry point
    issues at most one request. *)
Theorem C6_one_request_unless_degraded
    (hostA hostB : Host) (sdkA : openai_sdk) (sdkB : genai_sdk)
    (user_prompt : string) (stA stB startA startB : state)
    (c : OpenAI) (model : option GenerativeModel) :
  self_dict stA !! "client" = Some (VClient c) →
  self_dict stB !! "model"
    = Some (match model with Some m => VModel m | None => VNone end) →
  length (issued (chatgpt_api.ExampleLLM_call_llm sdkA user_prompt) stA) = 1%nat
  ∧ length (issued (gemini_api.GeminiLLM_call_llm sdkB user_prompt) stB)
    = match model with Some _ => 1%nat | None => 0%nat end
  ∧ (length (issued (chatgpt_api.main hostA sdkA) startA) ≤ 1)%nat
  ∧ (length (issued (gemini_api.main hostB sdkB) startB) ≤ 1)%nat.
Proof.
  intros Hc Hm. rewrite ExampleLLM_call_llm_issued, GeminiLLM_call_llm_issued.
  rewrite Hc, Hm. repeat split.
  - by destruct model.
  - apply at_most_issued, at_most_chatgpt_main.
  - apply at_most_issued, at_most_gemini_main.
Qed.

Lemma C6_one_request_unless_degraded_witness :
  let sdkA := openai_replying (Raise connection_error) in
  let sdkB := genai_replying (Raise deadline_exceeded) in
  let stA := ExampleLLM_ready sdkA in
  let stB := GeminiLLM_ready sdkB in
  (self_dict stA !! "client" = Some (VClient {| client_api_key := Some "o-key" |})
   ∧ self_dict stB !! "model" = Some (VModel {| model_name := "gemini-2.5-pro" |}))
  ∧ length (issued (chatgpt_api.ExampleLLM_call_llm sdkA sample_statement) stA) = 1%nat
  ∧ length (issued (gemini_api.GeminiLLM_call_llm sdkB sample_statement) stB) = 1%nat
  ∧ (length (issued (chatgpt_api.main host_with_keys sdkA) st_empty) ≤ 1)%nat
  ∧ (length (issued (gemini_api.main host_with_keys sdkB) st_with_statement) ≤ 1)%nat.
Proof.
  intros sdkA sdkB stA stB.
  assert (self_dict stA !! "client" = Some (VClient {| client_api_key := Some "o-key" |}))
    as Hc by (vm_compute; reflexivity).
  assert (self_dict stB !! "model" = Some (VModel {| model_name := "gemini-2.5-pro" |}))
    as Hm by (vm_compute; reflexivity).
  split; [by split|].
  exact (C6_one_request_unless_degraded host_with_keys host_with_keys sdkA sdkB
           sample_statement stA stB st_empty st_with_statement
           {| client_api_key := Some "o-key" |}
           (Some {| model_name := "gemini-2.5-pro" |}) Hc Hm).
Defined.

(** C6 as stated fails: a degraded [GeminiLLM] answers [call_llm] without
    invoking the provider at all. *)
Lemma C6_counterexample :
  self_dict (GeminiLLM_degraded genai_answering) !! "model" = Some VNone
  ∧ length (issued (gemini_api.GeminiLLM_call_llm genai_answering sample_statement)
              (GeminiLLM_degraded genai_answering)) = 0%nat.
Proof. split; vm_compute; reflexivity. Qed.

(** C7.  The two files fix the same instruction, and for every problem
    statement the prompt that reaches [call_llm] is the same text in both:
    a [call_llm] that echoes its argument, put behind either adapter after
    its construction, shows the instruction followed by the statement. *)
Theorem C7_same_user_prompt
    (hostA hostB : Host) (sdkA : openai_sdk) (sdkB : genai_sdk)
    (stA0 stB0 : state) (S : string) :
  let stA := (chatgpt_api.ExampleLLM__init__ hostA sdkA stA0).2 in
  let stB := (gemini_api.GeminiLLM__init__ hostB sdkB stB0).2 in
  let echoA := {| chatgpt_api.call_llm := echo_prompt |} in
  let echoB := {| gemini_api.call_llm := echo_prompt |} in
  chatgpt_api.instruction = gemini_api.instruction
  ∧ (chatgpt_api.generate_solution (self := echoA) S stA).1
    = Ret (chatgpt_api.instruction +:+ S, tt)
  ∧ (gemini_api.generate_solution (self := echoB) S stB).1
    = (chatgpt_api.generate_solution (self := echoA) S stA).1.
Proof.
  intros stA stB echoA echoB.
  pose proof (ExampleLLM__init__prompt hostA sdkA stA0) as HA.
  pose proof (GeminiLLM__init__prompt hostB sdkB stB0) as HB.
  rewrite (chatgpt_generate_solution_unfold echoA S _ stA HA).
  rewrite (gemini_generate_solution_unfold echoB S _ stB HB).
  by repeat split.
Qed.

(** C8.  No sequence of [generate_solution] and [call_llm] invocations
    changes the adapter's attribute dictionary: [prompt], [client] and
    [model] are after every invocation what construction left there. *)
Theorem C8_attributes_never_reassigned
    (sdkA : openai_sdk) (sdkB : genai_sdk) (l : list invocation) (stA stB : state) :
  self_dict (invoke_all (ExampleLLM_invoke sdkA) l stA) = self_dict stA
  ∧ self_dict (invoke_all (GeminiLLM_invoke sdkB) l stB) = self_dict stB.
Proof.
  split.
  - apply invoke_all_keeps, ExampleLLM_invoke_keeps.
  - apply invoke_all_keeps, GeminiLLM_invoke_keeps.
Qed.



(** ** The Gemini entry point *)

(** With a credential and a cooperative SDK, construction stores the model
    and prints nothing. *)
Lemma GeminiLLM__init__with_key (host : Host) (sdk : genai_sdk) (st0 : state)
    (key : string) (m : GenerativeModel) :
  environ host !! "GOOGLE_API_KEY" = Some key →
  key ≠ "" →
  genai_configure sdk key = Ret tt →
  GenerativeModel_new sdk "gemini-2.5-pro" = Ret m →
  gemini_api.GeminiLLM__init__ host sdk st0
  = (Ret tt,
     State (<["model" := VModel m]> (<["prompt" := VStr gemini_api.instruction]> (self_dict st0)))
       (net st0) (stdout st0) (fs st0)).
Proof.
  intros Henv Hkey Hconf Hnew.
  unfold gemini_api.GeminiLLM__init__, gemini_api.LLMInterface__init__,
    try_except, bind, setattr_self, os_getenv, ret, print, lift_res.
  cbn [fst snd self_dict net stdout fs]. rewrite Henv.
  unfold gemini_api.require_api_key.
  apply String.eqb_neq in Hkey. rewrite Hkey. unfold ret.
  by rewrite Hconf, Hnew.
Qed.

(** The entry point's test on the returned text. *)
Lemma is_valid_response_false (t : string) :
  gemini_api.is_valid_response t = false
  ↔ t = "" ∨ ∃ a b, t = a +:+ "Error:" +:+ b.
Proof.
  unfold gemini_api.is_valid_response.
  rewrite andb_false_iff, !negb_false_iff, String.eqb_eq.
  by rewrite contains_spec.
Qed.

(** The whole run of the entry point when the provider's text is rejected. *)
Lemma main_rejected_run
    (host : Host) (sdk : genai_sdk) (st0 : state)
    (key statement t : string) (m : GenerativeModel) (r : GenerateContentResponse) :
  environ host !! "GOOGLE_API_KEY" = Some key →
  key ≠ "" →
  genai_configure sdk key = Ret tt →
  GenerativeModel_new sdk "gemini-2.5-pro" = Ret m →
  fs st0 !! gemini_api.problem_file_path = Some statement →
  model_generate_content sdk (net st0) m (gemini_api.instruction +:+ statement)
    gemini_api.request_options = Ret r →
  text r = Ret t →
  gemini_api.is_valid_response t = false →
  gemini_api.main host sdk st0
  = (Ret tt,
     State (<["model" := VModel m]> (<["prompt" := VStr gemini_api.instruction]> ∅))
       (net st0 ++ [generate_content m (gemini_api.instruction +:+ statement)
                      gemini_api.request_options])
       (stdout st0 ++ ["Generating solution with Gemini...";
                       nl +:+ "Failed to generate a valid solution.";
                       "Response from API: " +:+ t])
       (fs st0)).
Proof.
  intros Henv Hkey Hconf Hnew Hfile Hcall Htext Hbad.
  unfold gemini_api.main.
  unfold bind at 1. unfold new_object at 1. cbv iota beta.
  unfold bind at 1.
  rewrite (GeminiLLM__init__with_key host sdk _ key m Henv Hkey Hconf Hnew).
  cbn [self_dict net stdout fs].
  unfold bind at 1. unfold os_path_exists at 1. cbn [fs].
  rewrite Hfile. rewrite bool_decide_true by by eexists. cbn [negb].
  unfold bind at 1. unfold ret at 1.
  unfold try_except, bind at 1. unfold read_file. cbn [fs]. rewrite Hfile.
  unfold bind at 1. unfold print at 1. cbn [self_dict net stdout fs].
  unfold bind at 1.
  rewrite (gemini_generate_solution_unfold _ statement gemini_api.instruction)
    by (cbn [self_dict]; rewrite lookup_insert_ne by done; apply lookup_insert_eq).
  change (gemini_api.call_llm ?x) with (gemini_api.GeminiLLM_call_llm sdk x).
  rewrite (GeminiLLM_call_llm_ready sdk _ _ m) by (cbn [self_dict]; apply lookup_insert_eq).
  cbv zeta. cbn [self_dict net stdout fs]. rewrite Hcall, Htext, Hbad.
  unfold bind, print. cbn [fst snd self_dict net stdout fs].
  by rewrite <- !app_assoc.
Qed.

(** C10.  The entry point rejects exactly the texts that are empty or have
    [Error:] somewhere in them.  So when everything went well (credential
    present, model built, statement file there, provider answered [r] with
    text [t]) but [t] is such a text, the run writes no file at all and
    prints the failure report with [t] in it. *)
Theorem C10_error_marker_rejects_solution
    (host : Host) (sdk : genai_sdk) (st0 : state)
    (key statement t : string) (m : GenerativeModel) (r : GenerateContentResponse) :
  environ host !! "GOOGLE_API_KEY" = Some key →
  key ≠ "" →
  genai_configure sdk key = Ret tt →
  GenerativeModel_new sdk "gemini-2.5-pro" = Ret m →
  fs st0 !! gemini_api.problem_file_path = Some statement →
  model_generate_content sdk (net st0) m (gemini_api.instruction +:+ statement)
    gemini_api.request_options = Ret r →
  text r = Ret t →
  (t = "" ∨ ∃ a b, t = a +:+ "Error:" +:+ b) →
  let final := gemini_api.main host sdk st0 in
  (∀ t', gemini_api.is_valid_response t' = false
         ↔ t' = "" ∨ ∃ a b, t' = a +:+ "Error:" +:+ b)
  ∧ final.1 = Ret tt
  ∧ fs final.2 = fs st0
  ∧ stdout final.2
    = (stdout st0 ++ ["Generating solution with Gemini...";
                      nl +:+ "Failed to generate a valid solution.";
                      "Response from API: " +:+ t])%list.
Proof.
  intros Henv Hkey Hconf Hnew Hfile Hcall Htext Hbad final.
  split; [exact is_valid_response_false|].
  apply is_valid_response_false in Hbad. subst final.
  rewrite (main_rejected_run host sdk st0 key statement t m r) by done.
  by repeat split.
Qed.

Lemma C10_error_marker_rejects_solution_witness :
  let sdk := genai_replying (Ret response_mentioning_error) in
  let t := "```cpp int main() { std::cerr << 'Error: bad input'; } ```" in
  let final := gemini_api.main host_with_keys sdk st_with_statement in
  (text response_mentioning_error = Ret t
   ∧ ∃ a b, t = a +:+ "Error:" +:+ b)
  ∧ (∀ t', gemini_api.is_valid_response t' = false
           ↔ t' = "" ∨ ∃ a b, t' = a +:+ "Error:" +:+ b)
  ∧ final.1 = Ret tt
  ∧ fs final.2 = fs st_with_statement
  ∧ stdout final.2
    = (stdout st_with_statement
       ++ ["Generating solution with Gemini...";
           nl +:+ "Failed to generate a valid solution.";
           "Response from API: " +:+ t])%list.
Proof.
  intros sdk t final.
  assert (∃ a b, t = a +:+ "Error:" +:+ b) as Hmarker.
  { exists "```cpp int main() { std::cerr << '", " bad input'; } ```". reflexivity. }
  split; [by split|].
  refine (C10_error_marker_rejects_solution host_with_keys sdk st_with_statement
            "g-key" sample_statement t {| model_name := "gemini-2.5-pro" |}
            response_mentioning_error _ _ eq_refl eq_refl _ eq_refl eq_refl
            (or_intror Hmarker)).
  - vm_compute; reflexivity.
  - discriminate.
  - vm_compute; reflexivity.
Defined.

(** On a constructed [GeminiLLM] the one request is the prompt with the
    [request_options] dictionary, whose only entry is the timeout. *)
Example gemini_request_sample :
  issued (gemini_api.GeminiLLM_call_llm genai_answering sample_statement)
    (GeminiLLM_ready genai_answering)
  = [generate_content {| model_name := "gemini-2.5-pro" |} sample_statement
       {[ "timeout" := 600 ]}].
Proof.
  rewrite GeminiLLM_call_llm_issued.
  by replace (self_dict (GeminiLLM_ready genai_answering) !! "model")
    with (Some (VModel {| model_name := "gemini-2.5-pro" |}))
    by (vm_compute; reflexivity).
Qed.

(** ** The entry points on the sample worlds *)

(** A plain answer is written to the output file as returned, in both
    scripts, after exactly one request. *)
Example chatgpt_main_sample :
  let final := chatgpt_api.main host_with_keys (openai_replying (Ret completion_plain))
                 (State ∅ [] [] {[ chatgpt_api.statement_path := sample_statement ]}) in
  final.1 = Ret tt
  ∧ fs final.2 !! chatgpt_api.output_filename = Some "```cpp int main() { return 1; } ```"
  ∧ length (net final.2) = 1%nat.
Proof. repeat split; vm_compute; reflexivity. Qed.

Example gemini_main_sample :
  let final := gemini_api.main host_with_keys (genai_replying (Ret response_plain))
                 st_with_statement in
  final.1 = Ret tt
  ∧ fs final.2 !! gemini_api.output_filename = Some "```cpp int main() { return 1; } ```"
  ∧ length (net final.2) = 1%nat.
Proof. repeat split; vm_compute; reflexivity. Qed.

(** Without a credential the Gemini script still runs to the end, creating
    the placeholder statement if need be, and never reaches the network. *)
Example gemini_main_degraded_sample :
  let final := gemini_api.main host_no_key (genai_replying (Ret response_plain)) st_empty in
  final.1 = Ret tt
  ∧ fs final.2 !! gemini_api.output_filename = None
  ∧ net final.2 = [].
Proof. repeat split; vm_compute; reflexivity. Qed.

(** * Further properties of the two scripts *)

(** ** Observables a command leaves alone *)

Lemma field_ret {B} (f : state → B) {A} (a : A) : keeps_field f (ret a).
Proof. by intros st. Qed.

Lemma field_raise {B} (f : state → B) {A} (e : exn) : keeps_field f (raise (A := A) e).
Proof. by intros st. Qed.

Lemma field_lift_res {B} (f : state → B) {A} (r : res A) : keeps_field f (lift_res r).
Proof. by intros st. Qed.

Lemma field_getattr {B} (f : state → B) (name : string) : keeps_field f (getattr_self name).
Proof. intros st. unfold getattr_self. by destruct (self_dict st !! name). Qed.

Lemma field_str_add {B} (f : state → B) (v : pyval) (s : string) : keeps_field f (str_add v s).
Proof. intros st. by destruct v. Qed.

Lemma field_os_getenv {B} (f : state → B) (host : Host) (name : string) :
  keeps_field f (os_getenv host name).
Proof. by intros st. Qed.

Lemma field_os_path_exists {B} (f : state → B) (path : string) :
  keeps_field f (os_path_exists path).
Proof. by intros st. Qed.

Lemma field_read_file {B} (f : state → B) (path : string) : keeps_field f (read_file path).
Proof. intros st. unfold read_file. by destruct (fs st !! path). Qed.

Lemma field_bind {B} (f : state → B) {A A'} (c : M A) (k : A → M A') :
  keeps_field f c → (∀ a, keeps_field f (k a)) → keeps_field f (bind c k).
Proof.
  intros Hc Hk st. unfold bind. specialize (Hc st).
  destruct (c st) as [[a|e] st']; cbn [snd] in *; [|done].
  by rewrite Hk.
Qed.

Lemma field_try_except {B} (f : state → B) {A} (body : M A) (handler : exn → M A) :
  keeps_field f body → (∀ e, keeps_field f (handler e)) →
  keeps_field f (try_except body handler).
Proof.
  intros Hb Hh st. unfold try_except. specialize (Hb st).
  destruct (body st) as [[a|e] st']; cbn [snd] in *; [done|].
  destruct (isinstance_Exception e); [|done]. by rewrite Hh.
Qed.

Lemma fs_print (s : string) : keeps_field fs (print s).
Proof. by intros st. Qed.

Lemma fs_setattr (name : string) (v : pyval) : keeps_field fs (setattr_self name v).
Proof. by intros st. Qed.

Lemma fs_new_object : keeps_field fs new_object.
Proof. by intros st. Qed.

Lemma fs_chat_create (sdk : openai_sdk) (client : pyval) (kwargs : gmap string kwval) :
  keeps_field fs (chatgpt_api.client_chat_completions_create sdk client kwargs).
Proof. intros st. by destruct client. Qed.

Lemma fs_generate_content (sdk : genai_sdk) (model : pyval) (contents : string)
    (opts : gmap string Z) :
  keeps_field fs (gemini_api.self_model_generate_content sdk model contents opts).
Proof. intros st. by destruct model. Qed.

Lemma stdout_setattr (name : string) (v : pyval) : keeps_field stdout (setattr_self name v).
Proof. by intros st. Qed.

Lemma stdout_chat_create (sdk : openai_sdk) (client : pyval) (kwargs : gmap string kwval) :
  keeps_field stdout (chatgpt_api.client_chat_completions_create sdk client kwargs).
Proof. intros st. by destruct client. Qed.

Lemma field_index0 {B} (f : state → B) {A} (l : list A) :
  keeps_field f (chatgpt_api.index0 l).
Proof. intros st. by destruct l. Qed.

Lemma field_require_api_key {B} (f : state → B) (api_key : option string) :
  keeps_field f (gemini_api.require_api_key api_key).
Proof.
  intros st. destruct api_key as [key|]; cbn [gemini_api.require_api_key]; [|done].
  by destruct (String.eqb key "").
Qed.

(** A command that keeps the whole file system keeps each file. *)
Lemma file_at_of_fs {A} (path : string) (c : M A) :
  keeps_field fs c → keeps_field (file_at path) c.
Proof. intros Hc st. unfold file_at. by rewrite Hc. Qed.

Lemma file_at_open_w (host : Host) (path other : string) :
  path ≠ other → keeps_field (file_at path) (open_w host other).
Proof.
  intros Hne st. unfold open_w, file_at.
  destruct (open_w_error host other); [done|]. cbn [snd fs].
  by rewrite lookup_insert_ne.
Qed.

Lemma file_at_f_write (path other s : string) :
  path ≠ other → keeps_field (file_at path) (f_write other s).
Proof.
  intros Hne st. unfold f_write, file_at. cbn [snd fs]. by rewrite lookup_insert_ne.
Qed.

Lemma file_at_f_write_optional (host : Host) (path other : string)
    (response : option string) :
  path ≠ other →
  keeps_field (file_at path) (chatgpt_api.f_write_optional host other response).
Proof.
  intros Hne. destruct response as [s|]; [|apply field_raise].
  cbn [chatgpt_api.f_write_optional]. unfold f_write_locale.
  destruct (locale_encode_error host s); [apply field_raise|by apply file_at_f_write].
Qed.

Create HintDb frame.

#[global] Hint Resolve field_ret field_raise field_lift_res field_getattr field_str_add
  field_os_getenv field_os_path_exists field_read_file field_index0
  field_require_api_key fs_print fs_setattr fs_new_object fs_chat_create
  fs_generate_content stdout_setattr stdout_chat_create : frame.

(** Splits a sequence, a [try] or a branch; closes the parts that are
    primitive. *)
Ltac frame_step :=
  first [ apply field_bind; [|intros ?]
        | apply field_try_except; [|intros ?]
        | solve [auto with frame]
        | match goal with |- keeps_field _ (if ?b then _ else _) => destruct b end
        | match goal with |- keeps_field _ (match ?x with (_, _) => _ end) =>
            destruct x
          end ].

Lemma fs_ExampleLLM_call_llm (sdk : openai_sdk) (p : string) :
  keeps_field fs (chatgpt_api.ExampleLLM_call_llm sdk p).
Proof. unfold chatgpt_api.ExampleLLM_call_llm. repeat frame_step. Qed.

Lemma stdout_ExampleLLM_call_llm (sdk : openai_sdk) (p : string) :
  keeps_field stdout (chatgpt_api.ExampleLLM_call_llm sdk p).
Proof. unfold chatgpt_api.ExampleLLM_call_llm. repeat frame_step. Qed.

Lemma fs_GeminiLLM_call_llm (sdk : genai_sdk) (p : string) :
  keeps_field fs (gemini_api.GeminiLLM_call_llm sdk p).
Proof. unfold gemini_api.GeminiLLM_call_llm. repeat frame_step. Qed.

Lemma field_chatgpt_generate_solution {B} (f : state → B) {Text Meta}
    (self : chatgpt_api.LLMInterface Text Meta) (s : string) :
  (∀ p, keeps_field f (chatgpt_api.call_llm p)) →
  keeps_field f (chatgpt_api.generate_solution s).
Proof.
  intros Hcall. unfold chatgpt_api.generate_solution.
  repeat first [apply Hcall | frame_step].
Qed.

Lemma field_gemini_generate_solution {B} (f : state → B) {Text Meta}
    (self : gemini_api.LLMInterface Text Meta) (s : string) :
  (∀ p, keeps_field f (gemini_api.call_llm p)) →
  keeps_field f (gemini_api.generate_solution s).
Proof.
  intros Hcall. unfold gemini_api.generate_solution.
  repeat first [apply Hcall | frame_step].
Qed.

Lemma fs_ExampleLLM__init__ (host : Host) (sdk : openai_sdk) :
  keeps_field fs (chatgpt_api.ExampleLLM__init__ host sdk).
Proof.
  unfold chatgpt_api.ExampleLLM__init__, chatgpt_api.LLMInterface__init__.
  repeat frame_step.
Qed.

Lemma fs_GeminiLLM__init__ (host : Host) (sdk : genai_sdk) :
  keeps_field fs (gemini_api.GeminiLLM__init__ host sdk).
Proof.
  unfold gemini_api.GeminiLLM__init__, gemini_api.LLMInterface__init__.
  repeat frame_step.
Qed.

Lemma invoke_all_field {B} (f : state → B) (invoke : invocation → state → state) :
  (∀ i st, f (invoke i st) = f st) →
  ∀ l st, f (invoke_all invoke l st) = f st.
Proof.
  intros Hone l. induction l as [|i l IH]; intros st; [done|].
  unfold invoke_all in *. cbn [foldl]. by rewrite IH.
Qed.

(** X1.  Whatever the caller does with either adapter, its methods never
    touch a file, and those of [ExampleLLM] never print. *)
Theorem X1_methods_leave_files_and_output_alone
    (sdkA : openai_sdk) (sdkB : genai_sdk) (l : list invocation) (stA stB : state) :
  fs (invoke_all (ExampleLLM_invoke sdkA) l stA) = fs stA
  ∧ stdout (invoke_all (ExampleLLM_invoke sdkA) l stA) = stdout stA
  ∧ fs (invoke_all (GeminiLLM_invoke sdkB) l stB) = fs stB.
Proof.
  repeat split.
  - apply invoke_all_field. intros [s|p] st; cbn [ExampleLLM_invoke].
    + apply (field_chatgpt_generate_solution fs (chatgpt_api.ExampleLLM sdkA)).
      apply fs_ExampleLLM_call_llm.
    + apply fs_ExampleLLM_call_llm.
  - apply invoke_all_field. intros [s|p] st; cbn [ExampleLLM_invoke].
    + apply (field_chatgpt_generate_solution stdout (chatgpt_api.ExampleLLM sdkA)).
      apply stdout_ExampleLLM_call_llm.
    + apply stdout_ExampleLLM_call_llm.
  - apply invoke_all_field. intros [s|p] st; cbn [GeminiLLM_invoke].
    + apply (field_gemini_generate_solution fs (gemini_api.GeminiLLM sdkB)).
      apply fs_GeminiLLM_call_llm.
    + apply fs_GeminiLLM_call_llm.
Qed.

(** ** Construction *)

(** [ExampleLLM.__init__], run: the prompt is stored, the credential is
    printed, and then everything hangs on the client constructor. *)
Lemma ExampleLLM__init__run (host : Host) (sdk : openai_sdk) (st0 : state) :
  let api_key := environ host !! "OPENAI_API_KEY" in
  chatgpt_api.ExampleLLM__init__ host sdk st0
  = match OpenAI_new sdk api_key with
    | Ret c =>
        (Ret tt,
         State (<["client" := VClient c]>
                  (<["prompt" := VStr chatgpt_api.instruction]> (self_dict st0)))
           (net st0) (stdout st0 ++ [default "None" api_key]) (fs st0))
    | Raise e =>
        (Raise e,
         State (<["prompt" := VStr chatgpt_api.instruction]> (self_dict st0))
           (net st0) (stdout st0 ++ [default "None" api_key]) (fs st0))
    end.
Proof.
  intros api_key. subst api_key.
  unfold chatgpt_api.ExampleLLM__init__, chatgpt_api.LLMInterface__init__,
    chatgpt_api.str_of_optional, bind, setattr_self, os_getenv, ret, print, lift_res.
  cbn [fst snd self_dict net stdout fs].
  by destruct (OpenAI_new sdk _).
Qed.

(** X2.  Constructing [ExampleLLM] writes the OpenAI credential to standard
    output in clear, as the one line it prints, and does so whether or not
    the client can then be built. *)
Theorem X2_ExampleLLM_prints_credential
    (host : Host) (sdk : openai_sdk) (st0 : state) (key : string) :
  environ host !! "OPENAI_API_KEY" = Some key →
  stdout (chatgpt_api.ExampleLLM__init__ host sdk st0).2 = (stdout st0 ++ [key])%list.
Proof.
  intros Hkey. rewrite ExampleLLM__init__run. cbv zeta. rewrite Hkey.
  by destruct (OpenAI_new sdk _).
Qed.

Lemma X2_ExampleLLM_prints_credential_witness :
  environ host_with_keys !! "OPENAI_API_KEY" = Some "o-key"
  ∧ stdout (chatgpt_api.ExampleLLM__init__ host_with_keys openai_unbuildable st_empty).2
    = (stdout st_empty ++ ["o-key"])%list.
Proof.
  assert (environ host_with_keys !! "OPENAI_API_KEY" = Some "o-key") as Hkey
    by (vm_compute; reflexivity).
  split; [exact Hkey|].
  exact (X2_ExampleLLM_prints_credential host_with_keys openai_unbuildable st_empty
           "o-key" Hkey).
Defined.

(** X3.  [ExampleLLM.__init__] is fail-fast: when the client constructor
    raises, of whatever class, the constructor raises the same error, no
    [client] attribute is stored and no request is issued. *)
Theorem X3_ExampleLLM_construction_fails_fast
    (host : Host) (sdk : openai_sdk) (st0 : state) (e : exn) :
  OpenAI_new sdk (environ host !! "OPENAI_API_KEY") = Raise e →
  let built := chatgpt_api.ExampleLLM__init__ host sdk st0 in
  built.1 = Raise e
  ∧ self_dict built.2 !! "client" = self_dict st0 !! "client"
  ∧ net built.2 = net st0.
Proof.
  intros He built. subst built. rewrite ExampleLLM__init__run. cbv zeta. rewrite He.
  cbn [fst snd self_dict net]. by rewrite lookup_insert_ne.
Qed.

Lemma X3_ExampleLLM_construction_fails_fast_witness :
  let built := chatgpt_api.ExampleLLM__init__ host_no_key openai_unbuildable st_empty in
  built.1 = Raise (Exn (SDKError "OpenAIError") "The api_key client option must be set")
  ∧ self_dict built.2 !! "client" = self_dict st_empty !! "client"
  ∧ net built.2 = net st_empty.
Proof.
  exact (X3_ExampleLLM_construction_fails_fast host_no_key openai_unbuildable st_empty
           _ eq_refl).
Defined.

(** X4.  When the client constructor returns a client, [ExampleLLM.__init__]
    returns with that client and the instruction stored, having issued no
    request and touched no file. *)
Theorem X4_ExampleLLM_construction_stores_client
    (host : Host) (sdk : openai_sdk) (st0 : state) (c : OpenAI) :
  OpenAI_new sdk (environ host !! "OPENAI_API_KEY") = Ret c →
  let built := chatgpt_api.ExampleLLM__init__ host sdk st0 in
  built.1 = Ret tt
  ∧ self_dict built.2 !! "client" = Some (VClient c)
  ∧ self_dict built.2 !! "prompt" = Some (VStr chatgpt_api.instruction)
  ∧ net built.2 = net st0
  ∧ fs built.2 = fs st0.
Proof.
  intros Hc built. subst built. rewrite ExampleLLM__init__run. cbv zeta. rewrite Hc.
  cbn [fst snd self_dict net fs]. repeat split.
  - apply lookup_insert_eq.
  - rewrite lookup_insert_ne by done. apply lookup_insert_eq.
Qed.

Lemma X4_ExampleLLM_construction_stores_client_witness :
  let sdk := openai_replying (Ret completion_plain) in
  let built := chatgpt_api.ExampleLLM__init__ host_with_keys sdk st_empty in
  built.1 = Ret tt
  ∧ self_dict built.2 !! "client" = Some (VClient {| client_api_key := Some "o-key" |})
  ∧ self_dict built.2 !! "prompt" = Some (VStr chatgpt_api.instruction)
  ∧ net built.2 = net st_empty
  ∧ fs built.2 = fs st_empty.
Proof.
  intros sdk.
  assert (OpenAI_new sdk (environ host_with_keys !! "OPENAI_API_KEY")
          = Ret {| client_api_key := Some "o-key" |}) as Hc by (vm_compute; reflexivity).
  exact (X4_ExampleLLM_construction_stores_client host_with_keys sdk st_empty _ Hc).
Defined.

(** [GeminiLLM.__init__], run: every way through the [try]. *)
Lemma GeminiLLM__init__run (host : Host) (sdk : genai_sdk) (st0 : state) :
  let prompted := <["prompt" := VStr gemini_api.instruction]> (self_dict st0) in
  let degraded (e : exn) : res unit * state :=
    (Ret tt,
     State (<["model" := VNone]> prompted) (net st0)
       (stdout st0 ++ ["Error during Gemini initialization: " +:+ exn_str e]) (fs st0)) in
  let on_error (e : exn) : res unit * state :=
    if isinstance_Exception e then degraded e
    else (Raise e, State prompted (net st0) (stdout st0) (fs st0)) in
  let no_key := Exn ValueError "GOOGLE_API_KEY not found in environment variables." in
  gemini_api.GeminiLLM__init__ host sdk st0
  = match environ host !! "GOOGLE_API_KEY" with
    | None => degraded no_key
    | Some key =>
        if String.eqb key "" then degraded no_key
        else
          match genai_configure sdk key with
          | Raise e => on_error e
          | Ret _ =>
              match GenerativeModel_new sdk "gemini-2.5-pro" with
              | Raise e => on_error e
              | Ret m =>
                  (Ret tt,
                   State (<["model" := VModel m]> prompted) (net st0) (stdout st0) (fs st0))
              end
          end
    end.
Proof.
  cbv zeta.
  unfold gemini_api.GeminiLLM__init__, gemini_api.LLMInterface__init__,
    gemini_api.require_api_key, try_except, bind, setattr_self, os_getenv,
    ret, raise, print, lift_res.
  cbn [fst snd self_dict net stdout fs].
  destruct (environ host !! "GOOGLE_API_KEY") as [key|]; [|done].
  destruct (String.eqb key ""); [done|].
  destruct (genai_configure sdk key) as [[]|e].
  - destruct (GenerativeModel_new sdk _) as [m|e]; [done|].
    by destruct (isinstance_Exception e).
  - by destruct (isinstance_Exception e).
Qed.

(** X5.  An empty [GOOGLE_API_KEY] counts as a missing one: the adapter is
    built degraded with the same printed line, and the SDK has no part in
    the result. *)
Theorem X5_GeminiLLM_empty_credential_degrades
    (host : Host) (sdk : genai_sdk) (st0 : state) :
  environ host !! "GOOGLE_API_KEY" = Some "" →
  gemini_api.GeminiLLM__init__ host sdk st0
  = (Ret tt,
     State (<["model" := VNone]> (<["prompt" := VStr gemini_api.instruction]> (self_dict st0)))
       (net st0)
       (stdout st0 ++ ["Error during Gemini initialization: GOOGLE_API_KEY not found in environment variables."])
       (fs st0)).
Proof. intros Hkey. rewrite GeminiLLM__init__run. cbv zeta. by rewrite Hkey. Qed.

Lemma X5_GeminiLLM_empty_credential_degrades_witness :
  gemini_api.GeminiLLM__init__ host_empty_key genai_answering st_empty
  = (Ret tt,
     State (<["model" := VNone]> (<["prompt" := VStr gemini_api.instruction]> (self_dict st_empty)))
       (net st_empty)
       (stdout st_empty ++ ["Error during Gemini initialization: GOOGLE_API_KEY not found in environment variables."])
       (fs st_empty)).
Proof.
  assert (environ host_empty_key !! "GOOGLE_API_KEY" = Some "") as Hkey
    by (vm_compute; reflexivity).
  exact (X5_GeminiLLM_empty_credential_degrades host_empty_key genai_answering st_empty Hkey).
Defined.

(** X6.  With a credential present, an [Exception] raised by
    [genai.configure] or by the [GenerativeModel] constructor is swallowed:
    construction returns, the model is [None], and the one line printed
    carries the error's text. *)
Theorem X6_GeminiLLM_sdk_error_degrades
    (host : Host) (sdk : genai_sdk) (st0 : state) (key : string) (e : exn) :
  environ host !! "GOOGLE_API_KEY" = Some key →
  key ≠ "" →
  (genai_configure sdk key = Raise e
   ∨ (genai_configure sdk key = Ret tt
      ∧ GenerativeModel_new sdk "gemini-2.5-pro" = Raise e)) →
  isinstance_Exception e = true →
  let built := gemini_api.GeminiLLM__init__ host sdk st0 in
  built.1 = Ret tt
  ∧ self_dict built.2 !! "model" = Some VNone
  ∧ stdout built.2
    = (stdout st0 ++ ["Error during Gemini initialization: " +:+ exn_str e])%list.
Proof.
  intros Henv Hkey Hsdk He built. subst built.
  rewrite GeminiLLM__init__run. cbv zeta. rewrite Henv.
  apply String.eqb_neq in Hkey. rewrite Hkey.
  destruct Hsdk as [->|[-> ->]]; rewrite He; cbn [fst snd self_dict stdout];
    by rewrite lookup_insert_eq.
Qed.

Lemma X6_GeminiLLM_sdk_error_degrades_witness :
  let built := gemini_api.GeminiLLM__init__ host_with_keys genai_unconfigurable st_empty in
  built.1 = Ret tt
  ∧ self_dict built.2 !! "model" = Some VNone
  ∧ stdout built.2
    = (stdout st_empty ++ ["Error during Gemini initialization: bad transport"])%list.
Proof.
  assert (environ host_with_keys !! "GOOGLE_API_KEY" = Some "g-key") as Henv
    by (vm_compute; reflexivity).
  refine (X6_GeminiLLM_sdk_error_degrades host_with_keys genai_unconfigurable st_empty
            "g-key" (Exn (SDKError "ConfigError") "bad transport")
            Henv _ (or_introl eq_refl) eq_refl).
  discriminate.
Defined.

(** X7.  With a non-empty credential and a cooperating SDK, construction
    stores the model built for the name [gemini-2.5-pro], prints nothing
    and issues no request. *)
Theorem X7_GeminiLLM_construction_stores_model
    (host : Host) (sdk : genai_sdk) (st0 : state) (key : string) (m : GenerativeModel) :
  environ host !! "GOOGLE_API_KEY" = Some key →
  key ≠ "" →
  genai_configure sdk key = Ret tt →
  GenerativeModel_new sdk "gemini-2.5-pro" = Ret m →
  let built := gemini_api.GeminiLLM__init__ host sdk st0 in
  built.1 = Ret tt
  ∧ self_dict built.2 !! "model" = Some (VModel m)
  ∧ stdout built.2 = stdout st0
  ∧ net built.2 = net st0.
Proof.
  intros Henv Hkey Hconf Hnew built. subst built.
  rewrite (GeminiLLM__init__with_key host sdk st0 key m Henv Hkey Hconf Hnew).
  cbn [fst snd self_dict stdout net]. by rewrite lookup_insert_eq.
Qed.

Lemma X7_GeminiLLM_construction_stores_model_witness :
  let built := gemini_api.GeminiLLM__init__ host_with_keys genai_answering st_empty in
  built.1 = Ret tt
  ∧ self_dict built.2 !! "model" = Some (VModel {| model_name := "gemini-2.5-pro" |})
  ∧ stdout built.2 = stdout st_empty
  ∧ net built.2 = net st_empty.
Proof.
  assert (environ host_with_keys !! "GOOGLE_API_KEY" = Some "g-key") as Henv
    by (vm_compute; reflexivity).
  refine (X7_GeminiLLM_construction_stores_model host_with_keys genai_answering st_empty
            "g-key" {| model_name := "gemini-2.5-pro" |} Henv _ eq_refl eq_refl).
  discriminate.
Defined.

(** X8.  In every world [GeminiLLM.__init__] raises nothing that is an
    [Exception], issues no request and touches no file; and when it returns
    the adapter has the instruction as [prompt] and, as [model], either
    [None] or a model. *)
Theorem X8_GeminiLLM_construction_invariant
    (host : Host) (sdk : genai_sdk) (st0 : state) :
  let built := gemini_api.GeminiLLM__init__ host sdk st0 in
  (built.1 = Ret tt ∨ ∃ e, built.1 = Raise e ∧ isinstance_Exception e = false)
  ∧ (built.1 = Ret tt →
     self_dict built.2 !! "prompt" = Some (VStr gemini_api.instruction)
     ∧ ∃ model : option GenerativeModel,
         self_dict built.2 !! "model"
         = Some (match model with Some m => VModel m | None => VNone end))
  ∧ net built.2 = net st0
  ∧ fs built.2 = fs st0.
Proof.
  intros built. subst built.
  pose proof (GeminiLLM__init__prompt host sdk st0) as Hprompt.
  rewrite GeminiLLM__init__run in *. cbv zeta in *.
  destruct (environ host !! "GOOGLE_API_KEY") as [key|].
  - destruct (String.eqb key "").
    + cbn [fst snd self_dict net fs]. repeat split; try done; [by left|].
      exists None. by rewrite lookup_insert_eq.
    + destruct (genai_configure sdk key) as [[]|e].
      * destruct (GenerativeModel_new sdk _) as [m|e].
        -- cbn [fst snd self_dict net fs]. repeat split; try done; [by left|].
           exists (Some m). by rewrite lookup_insert_eq.
        -- destruct (isinstance_Exception e) eqn:He; cbn [fst snd self_dict net fs].
           ++ repeat split; try done; [by left|].
              exists None. by rewrite lookup_insert_eq.
           ++ repeat split; try done. right. by exists e.
      * destruct (isinstance_Exception e) eqn:He; cbn [fst snd self_dict net fs].
        -- repeat split; try done; [by left|].
           exists None. by rewrite lookup_insert_eq.
        -- repeat split; try done. right. by exists e.
  - cbn [fst snd self_dict net fs]. repeat split; try done; [by left|].
    exists None. by rewrite lookup_insert_eq.
Qed.

(** ** The provider calls *)

(** [ExampleLLM.call_llm] when the request is answered with at least one
    choice. *)
Lemma ExampleLLM_call_llm_answered
    (sdk : openai_sdk) (user_prompt : string) (st : state) (c : OpenAI)
    (completion : ChatCompletion) (choice : Choice) (others : list Choice) :
  self_dict st !! "client" = Some (VClient c) →
  chat_create sdk (net st) c (chatgpt_api.create_kwargs user_prompt) = Ret completion →
  choices completion = choice :: others →
  chatgpt_api.ExampleLLM_call_llm sdk user_prompt st
  = (Ret (message_content choice, completion_str completion),
     State (self_dict st)
       (net st ++ [chat_completions_create c (chatgpt_api.create_kwargs user_prompt)])
       (stdout st) (fs st)).
Proof.
  intros Hc Hcall Hchoices.
  rewrite (ExampleLLM_call_llm_ready sdk user_prompt st c Hc). cbv zeta.
  by rewrite Hcall, Hchoices.
Qed.

(** X9.  On a constructed [ExampleLLM] whose request is answered,
    [call_llm] returns the message content of the first choice, whatever
    the other choices are, paired with [str(completion)]; it prints nothing
    and only the request log changes. *)
Theorem X9_ExampleLLM_returns_first_choice
    (sdk : openai_sdk) (user_prompt : string) (st : state) (c : OpenAI)
    (completion : ChatCompletion) (choice : Choice) (others : list Choice) :
  self_dict st !! "client" = Some (VClient c) →
  chat_create sdk (net st) c (chatgpt_api.create_kwargs user_prompt) = Ret completion →
  choices completion = choice :: others →
  chatgpt_api.ExampleLLM_call_llm sdk user_prompt st
  = (Ret (message_content choice, completion_str completion),
     State (self_dict st)
       (net st ++ [chat_completions_create c (chatgpt_api.create_kwargs user_prompt)])
       (stdout st) (fs st)).
Proof. apply ExampleLLM_call_llm_answered. Qed.

Lemma X9_ExampleLLM_returns_first_choice_witness :
  let sdk := openai_replying (Ret completion_plain) in
  let st := ExampleLLM_ready sdk in
  let c := {| client_api_key := Some "o-key" |} in
  chatgpt_api.ExampleLLM_call_llm sdk sample_statement st
  = (Ret (Some "```cpp int main() { return 1; } ```", "ChatCompletion(...)"),
     State (self_dict st)
       (net st ++ [chat_completions_create c (chatgpt_api.create_kwargs sample_statement)])
       (stdout st) (fs st)).
Proof.
  intros sdk st c.
  assert (self_dict st !! "client" = Some (VClient c)) as Hc by (vm_compute; reflexivity).
  exact (X9_ExampleLLM_returns_first_choice sdk sample_statement st c completion_plain
           {| message_content := Some "```cpp int main() { return 1; } ```" |} []
           Hc eq_refl eq_refl).
Defined.

(** X10.  A completion without choices makes [ExampleLLM.call_llm] raise
    [IndexError], after its one request has gone out. *)
Theorem X10_ExampleLLM_no_choices_raises
    (sdk : openai_sdk) (user_prompt : string) (st : state) (c : OpenAI)
    (completion : ChatCompletion) :
  self_dict st !! "client" = Some (VClient c) →
  chat_create sdk (net st) c (chatgpt_api.create_kwargs user_prompt) = Ret completion →
  choices completion = [] →
  (∃ e, (chatgpt_api.ExampleLLM_call_llm sdk user_prompt st).1 = Raise e
        ∧ exn_class e = IndexError)
  ∧ issued (chatgpt_api.ExampleLLM_call_llm sdk user_prompt) st
    = [chat_completions_create c (chatgpt_api.create_kwargs user_prompt)].
Proof.
  intros Hc Hcall Hchoices. split.
  - rewrite (ExampleLLM_call_llm_ready sdk user_prompt st c Hc). cbv zeta.
    rewrite Hcall, Hchoices. by eexists.
  - by rewrite ExampleLLM_call_llm_issued, Hc.
Qed.

Lemma X10_ExampleLLM_no_choices_raises_witness :
  let sdk := openai_replying (Ret completion_no_choices) in
  let st := ExampleLLM_ready sdk in
  let c := {| client_api_key := Some "o-key" |} in
  (∃ e, (chatgpt_api.ExampleLLM_call_llm sdk sample_statement st).1 = Raise e
        ∧ exn_class e = IndexError)
  ∧ issued (chatgpt_api.ExampleLLM_call_llm sdk sample_statement) st
    = [chat_completions_create c (chatgpt_api.create_kwargs sample_statement)].
Proof.
  intros sdk st c.
  assert (self_dict st !! "client" = Some (VClient c)) as Hc by (vm_compute; reflexivity).
  exact (X10_ExampleLLM_no_choices_raises sdk sample_statement st c completion_no_choices
           Hc eq_refl eq_refl).
Defined.

(** X11.  When the provider answers but reading [response.text] raises an
    [Exception], [GeminiLLM.call_llm] treats it like a failed call: it
    prints one diagnostic line and returns [Error: ] followed by the
    error's text, with [None]; the request has been issued. *)
Theorem X11_GeminiLLM_unreadable_text_is_failure
    (sdk : genai_sdk) (user_prompt : string) (st : state)
    (m : GenerativeModel) (r : GenerateContentResponse) (e : exn) :
  self_dict st !! "model" = Some (VModel m) →
  model_generate_content sdk (net st) m user_prompt gemini_api.request_options = Ret r →
  text r = Raise e →
  isinstance_Exception e = true →
  gemini_api.GeminiLLM_call_llm sdk user_prompt st
  = (Ret ("Error: " +:+ exn_str e, None),
     State (self_dict st)
       (net st ++ [generate_content m user_prompt gemini_api.request_options])
       (stdout st ++ ["An error occurred while calling the Gemini API: " +:+ exn_str e])
       (fs st)).
Proof.
  intros Hm Hcall Htext He.
  rewrite (GeminiLLM_call_llm_ready sdk user_prompt st m Hm). cbv zeta.
  by rewrite Hcall, Htext, He.
Qed.

Lemma X11_GeminiLLM_unreadable_text_is_failure_witness :
  let sdk := genai_replying (Ret response_blocked) in
  let st := GeminiLLM_ready sdk in
  let m := {| model_name := "gemini-2.5-pro" |} in
  gemini_api.GeminiLLM_call_llm sdk sample_statement st
  = (Ret ("Error: The response was blocked.", None),
     State (self_dict st)
       (net st ++ [generate_content m sample_statement gemini_api.request_options])
       (stdout st ++ ["An error occurred while calling the Gemini API: The response was blocked."])
       (fs st)).
Proof.
  intros sdk st m.
  assert (self_dict st !! "model" = Some (VModel m)) as Hm by (vm_compute; reflexivity).
  exact (X11_GeminiLLM_unreadable_text_is_failure sdk sample_statement st m
           response_blocked blocked Hm eq_refl eq_refl eq_refl).
Defined.

(** X12.  Every failure [GeminiLLM.call_llm] reports is one the entry point
    recognises: whenever it returns a text with [None] as metadata, the
    entry point's test rejects that text. *)
Theorem X12_reported_failures_are_rejected
    (sdk : genai_sdk) (user_prompt : string) (st : state) (t : string) :
  (gemini_api.GeminiLLM_call_llm sdk user_prompt st).1 = Ret (t, None) →
  gemini_api.is_valid_response t = false.
Proof.
  intros Hret. apply is_valid_response_false. right.
  apply contains_spec, contains_prefix.
  destruct (self_dict st !! "model") as [v|] eqn:Hm.
  - destruct v as [|s|c|m].
    + rewrite (GeminiLLM_call_llm_degraded sdk user_prompt st Hm) in Hret.
      by injection Hret as <-.
    + revert Hret. unfold gemini_api.GeminiLLM_call_llm, bind, getattr_self. rewrite Hm.
      cbn [truthy]. destruct (negb (negb _)).
      * cbn [fst ret]. by intros [= <-].
      * unfold try_except, bind, gemini_api.self_model_generate_content, raise.
        cbn [isinstance_Exception exn_class print ret fst snd exn_str].
        by intros [= <-].
    + revert Hret. unfold gemini_api.GeminiLLM_call_llm, bind, getattr_self. rewrite Hm.
      cbn [truthy negb].
      unfold try_except, bind, gemini_api.self_model_generate_content, raise.
      cbn [isinstance_Exception exn_class print ret fst snd exn_str].
      by intros [= <-].
    + revert Hret. rewrite (GeminiLLM_call_llm_ready sdk user_prompt st m Hm). cbv zeta.
      destruct (model_generate_content sdk (net st) m user_prompt _) as [r|e].
      * destruct (text r) as [t0|e]; [done|].
        destruct (isinstance_Exception e); [|done]. cbn [fst]. by intros [= <-].
      * destruct (isinstance_Exception e); [|done]. cbn [fst]. by intros [= <-].
  - revert Hret. unfold gemini_api.GeminiLLM_call_llm, bind, getattr_self.
    by rewrite Hm.
Qed.

Lemma X12_reported_failures_are_rejected_witness :
  let sdk := genai_replying (Raise deadline_exceeded) in
  (gemini_api.GeminiLLM_call_llm sdk sample_statement (GeminiLLM_ready sdk)).1
  = Ret ("Error: 504 Deadline Exceeded", None)
  ∧ gemini_api.is_valid_response "Error: 504 Deadline Exceeded" = false.
Proof.
  intros sdk.
  assert ((gemini_api.GeminiLLM_call_llm sdk sample_statement (GeminiLLM_ready sdk)).1
          = Ret ("Error: 504 Deadline Exceeded", None)) as Hret
    by (vm_compute; reflexivity).
  split; [exact Hret|].
  exact (X12_reported_failures_are_rejected sdk sample_statement (GeminiLLM_ready sdk)
           "Error: 504 Deadline Exceeded" Hret).
Defined.

(** X13.  End to end, the one request [generate_solution] sends on a
    constructed adapter carries the instruction followed by the whole
    problem statement: for [ExampleLLM] as the content of the single
    [user] message, with model [gpt-5] and [reasoning_effort] [high]; for
    [GeminiLLM] as the contents, with the 600-second timeout. *)
Theorem X13_request_carries_instruction_and_statement
    (sdkA : openai_sdk) (sdkB : genai_sdk) (S : string) (stA stB : state)
    (c : OpenAI) (m : GenerativeModel) :
  self_dict stA !! "prompt" = Some (VStr chatgpt_api.instruction) →
  self_dict stA !! "client" = Some (VClient c) →
  self_dict stB !! "prompt" = Some (VStr gemini_api.instruction) →
  self_dict stB !! "model" = Some (VModel m) →
  (∃ kwargs,
     issued (chatgpt_api.generate_solution (self := chatgpt_api.ExampleLLM sdkA) S) stA
     = [chat_completions_create c kwargs]
     ∧ kwargs !! "messages"
       = Some (KMessages [ {[ "role" := "user";
                              "content" := chatgpt_api.instruction +:+ S ]} ])
     ∧ kwargs !! "model" = Some (KStr "gpt-5")
     ∧ kwargs !! "reasoning_effort" = Some (KStr "high"))
  ∧ issued (gemini_api.generate_solution (self := gemini_api.GeminiLLM sdkB) S) stB
    = [generate_content m (gemini_api.instruction +:+ S) {[ "timeout" := 600 ]}].
Proof.
  intros HpA Hc HpB Hm. split.
  - exists (chatgpt_api.create_kwargs (chatgpt_api.instruction +:+ S)). split.
    + unfold issued.
      rewrite (chatgpt_generate_solution_unfold _ S chatgpt_api.instruction stA HpA).
      change (chatgpt_api.call_llm ?x) with (chatgpt_api.ExampleLLM_call_llm sdkA x).
      fold (issued (chatgpt_api.ExampleLLM_call_llm sdkA (chatgpt_api.instruction +:+ S)) stA).
      by rewrite ExampleLLM_call_llm_issued, Hc.
    + unfold chatgpt_api.create_kwargs. split; [|split].
      * rewrite lookup_insert_ne by done. apply lookup_insert_eq.
      * apply lookup_insert_eq.
      * rewrite !lookup_insert_ne by done. apply lookup_singleton_eq.
  - unfold issued.
    rewrite (gemini_generate_solution_unfold _ S gemini_api.instruction stB HpB).
    change (gemini_api.call_llm ?x) with (gemini_api.GeminiLLM_call_llm sdkB x).
    fold (issued (gemini_api.GeminiLLM_call_llm sdkB (gemini_api.instruction +:+ S)) stB).
    by rewrite GeminiLLM_call_llm_issued, Hm.
Qed.

Lemma X13_request_carries_instruction_and_statement_witness :
  let sdkA := openai_replying (Ret completion_plain) in
  let sdkB := genai_answering in
  let stA := ExampleLLM_ready sdkA in
  let stB := GeminiLLM_ready sdkB in
  (∃ kwargs,
     issued (chatgpt_api.generate_solution (self := chatgpt_api.ExampleLLM sdkA)
               sample_statement) stA
     = [chat_completions_create {| client_api_key := Some "o-key" |} kwargs]
     ∧ kwargs !! "messages"
       = Some (KMessages [ {[ "role" := "user";
                              "content" := chatgpt_api.instruction +:+ sample_statement ]} ])
     ∧ kwargs !! "model" = Some (KStr "gpt-5")
     ∧ kwargs !! "reasoning_effort" = Some (KStr "high"))
  ∧ issued (gemini_api.generate_solution (self := gemini_api.GeminiLLM sdkB)
              sample_statement) stB
    = [generate_content {| model_name := "gemini-2.5-pro" |}
         (gemini_api.instruction +:+ sample_statement) {[ "timeout" := 600 ]}].
Proof.
  intros sdkA sdkB stA stB.
  assert (self_dict stA !! "prompt" = Some (VStr chatgpt_api.instruction)) as HpA
    by (vm_compute; reflexivity).
  assert (self_dict stA !! "client" = Some (VClient {| client_api_key := Some "o-key" |}))
    as Hc by (vm_compute; reflexivity).
  assert (self_dict stB !! "prompt" = Some (VStr gemini_api.instruction)) as HpB
    by (vm_compute; reflexivity).
  assert (self_dict stB !! "model" = Some (VModel {| model_name := "gemini-2.5-pro" |}))
    as Hm by (vm_compute; reflexivity).
  exact (X13_request_carries_instruction_and_statement sdkA sdkB sample_statement
           stA stB _ _ HpA Hc HpB Hm).
Defined.

(** ** The OpenAI entry point *)

(** The run of [chatgpt_api]'s [__main__] up to the provider call, when the
    client could be built and the statement file is there. *)
Lemma chatgpt_main_run (host : Host) (sdk : openai_sdk) (st0 : state)
    (c : OpenAI) (statement : string) :
  OpenAI_new sdk (environ host !! "OPENAI_API_KEY") = Ret c →
  fs st0 !! chatgpt_api.statement_path = Some statement →
  chatgpt_api.main host sdk st0
  = match chatgpt_api.ExampleLLM_call_llm sdk (chatgpt_api.instruction +:+ statement)
            (State (<["client" := VClient c]>
                      (<["prompt" := VStr chatgpt_api.instruction]> ∅))
               (net st0)
               (stdout st0 ++ [default "None" (environ host !! "OPENAI_API_KEY")])
               (fs st0)) with
    | (Ret (response, meta), st) =>
        (open_w host chatgpt_api.output_filename ;;;
         chatgpt_api.f_write_optional host chatgpt_api.output_filename response ;;;
         print meta) st
    | (Raise e, st) => (Raise e, st)
    end.
Proof.
  intros Hc Hfile. unfold chatgpt_api.main.
  unfold bind at 1. unfold new_object at 1. cbv iota beta.
  unfold bind at 1. rewrite ExampleLLM__init__run. cbv zeta.
  cbn [self_dict net stdout fs]. rewrite Hc.
  unfold bind at 1. unfold read_file at 1. cbn [fs]. rewrite Hfile.
  unfold bind at 1.
  rewrite (chatgpt_generate_solution_unfold _ statement chatgpt_api.instruction)
    by (cbn [self_dict]; rewrite lookup_insert_ne by done; apply lookup_insert_eq).
  change (chatgpt_api.call_llm ?x) with (chatgpt_api.ExampleLLM_call_llm sdk x).
  by destruct (chatgpt_api.ExampleLLM_call_llm sdk _ _) as [[[response meta]|e] st].
Qed.



(** X15.  When the provider call fails, the OpenAI script ends with that
    very error and has not touched the output file: it is neither created
    nor truncated. *)
Theorem X15_chatgpt_main_provider_error
    (host : Host) (sdk : openai_sdk) (st0 : state) (c : OpenAI)
    (statement : string) (e : exn) :
  OpenAI_new sdk (environ host !! "OPENAI_API_KEY") = Ret c →
  fs st0 !! chatgpt_api.statement_path = Some statement →
  chat_create sdk (net st0) c
    (chatgpt_api.create_kwargs (chatgpt_api.instruction +:+ statement)) = Raise e →
  let final := chatgpt_api.main host sdk st0 in
  final.1 = Raise e ∧ fs final.2 = fs st0.
Proof.
  intros Hc Hfile Hcall final. subst final.
  rewrite (chatgpt_main_run host sdk st0 c statement Hc Hfile).
  rewrite (ExampleLLM_call_llm_ready sdk _ _ c) by (cbn [self_dict]; apply lookup_insert_eq).
  cbv zeta. cbn [self_dict net stdout fs]. by rewrite Hcall.
Qed.

Lemma X15_chatgpt_main_provider_error_witness :
  let sdk := openai_replying (Raise connection_error) in
  let final := chatgpt_api.main host_with_keys sdk st_with_chatgpt_statement in
  final.1 = Raise connection_error ∧ fs final.2 = fs st_with_chatgpt_statement.
Proof.
  intros sdk.
  assert (OpenAI_new sdk (environ host_with_keys !! "OPENAI_API_KEY")
          = Ret {| client_api_key := Some "o-key" |}) as Hc by (vm_compute; reflexivity).
  assert (fs st_with_chatgpt_statement !! chatgpt_api.statement_path = Some sample_statement)
    as Hfile by (vm_compute; reflexivity).
  exact (X15_chatgpt_main_provider_error host_with_keys sdk st_with_chatgpt_statement _
           sample_statement connection_error Hc Hfile eq_refl).
Defined.

(** X16.  When the first choice has no content ([None]), the OpenAI script
    has already opened the output file for writing when [f.write] raises
    [TypeError]: the run ends with that error and the output file is left
    empty, an earlier answer in it being lost. *)
Theorem X16_chatgpt_main_empty_content_truncates
    (host : Host) (sdk : openai_sdk) (st0 : state) (c : OpenAI)
    (statement : string) (completion : ChatCompletion)
    (choice : Choice) (others : list Choice) :
  OpenAI_new sdk (environ host !! "OPENAI_API_KEY") = Ret c →
  fs st0 !! chatgpt_api.statement_path = Some statement →
  chat_create sdk (net st0) c
    (chatgpt_api.create_kwargs (chatgpt_api.instruction +:+ statement)) = Ret completion →
  choices completion = choice :: others →
  message_content choice = None →
  open_w_error host chatgpt_api.output_filename = None →
  let final := chatgpt_api.main host sdk st0 in
  (∃ e, final.1 = Raise e ∧ exn_class e = TypeError)
  ∧ fs final.2 = <[chatgpt_api.output_filename := ""]> (fs st0).
Proof.
  intros Hc Hfile Hcall Hchoices Hcontent Hopen final. subst final.
  rewrite (chatgpt_main_run host sdk st0 c statement Hc Hfile).
  rewrite (ExampleLLM_call_llm_answered sdk _ _ c completion choice others)
    by (try done; cbn [self_dict]; apply lookup_insert_eq).
  rewrite Hcontent.
  unfold bind, open_w. rewrite Hopen.
  cbn [chatgpt_api.f_write_optional raise self_dict net stdout fs fst snd].
  split; [by eexists|done].
Qed.

Lemma X16_chatgpt_main_empty_content_truncates_witness :
  let sdk := openai_replying (Ret completion_no_content) in
  let st0 := State ∅ [] []
               {[ chatgpt_api.statement_path := sample_statement;
                  chatgpt_api.output_filename := "an older answer" ]} in
  let final := chatgpt_api.main host_with_keys sdk st0 in
  (∃ e, final.1 = Raise e ∧ exn_class e = TypeError)
  ∧ fs final.2 = <[chatgpt_api.output_filename := ""]> (fs st0).
Proof.
  intros sdk st0.
  assert (OpenAI_new sdk (environ host_with_keys !! "OPENAI_API_KEY")
          = Ret {| client_api_key := Some "o-key" |}) as Hc by (vm_compute; reflexivity).
  assert (fs st0 !! chatgpt_api.statement_path = Some sample_statement) as Hfile
    by (vm_compute; reflexivity).
  exact (X16_chatgpt_main_empty_content_truncates host_with_keys sdk st0 _
           sample_statement completion_no_content {| message_content := None |} []
           Hc Hfile eq_refl eq_refl eq_refl eq_refl).
Defined.

(** X27.  When the first choice holds a text the locale's codec cannot
    encode, and the output file could be opened, the OpenAI script has
    truncated that file when [f.write] raises: the run ends with the
    codec's error and the output file is left empty. *)
Theorem X27_chatgpt_main_unencodable_answer
    (host : Host) (sdk : openai_sdk) (st0 : state) (c : OpenAI)
    (statement answer : string) (completion : ChatCompletion)
    (choice : Choice) (others : list Choice) (e : exn) :
  OpenAI_new sdk (environ host !! "OPENAI_API_KEY") = Ret c →
  fs st0 !! chatgpt_api.statement_path = Some statement →
  chat_create sdk (net st0) c
    (chatgpt_api.create_kwargs (chatgpt_api.instruction +:+ statement)) = Ret completion →
  choices completion = choice :: others →
  message_content choice = Some answer →
  open_w_error host chatgpt_api.output_filename = None →
  locale_encode_error host answer = Some e →
  let final := chatgpt_api.main host sdk st0 in
  final.1 = Raise e
  ∧ fs final.2 = <[chatgpt_api.output_filename := ""]> (fs st0).
Proof.
  intros Hc Hfile Hcall Hchoices Hcontent Hopen Hencode final. subst final.
  rewrite (chatgpt_main_run host sdk st0 c statement Hc Hfile).
  rewrite (ExampleLLM_call_llm_answered sdk _ _ c completion choice others)
    by (try done; cbn [self_dict]; apply lookup_insert_eq).
  rewrite Hcontent.
  unfold bind, open_w. rewrite Hopen.
  cbn [chatgpt_api.f_write_optional]. unfold f_write_locale. rewrite Hencode.
  by cbn [raise self_dict net stdout fs fst snd].
Qed.

Lemma X27_chatgpt_main_unencodable_answer_witness :
  let sdk := openai_replying (Ret completion_with_sign) in
  let st0 := State ∅ [] []
               {[ chatgpt_api.statement_path := sample_statement;
                  chatgpt_api.output_filename := "an older answer" ]} in
  let final := chatgpt_api.main host_narrow_locale sdk st0 in
  final.1 = Raise unencodable
  ∧ fs final.2 = <[chatgpt_api.output_filename := ""]> (fs st0).
Proof.
  intros sdk st0.
  assert (OpenAI_new sdk (environ host_narrow_locale !! "OPENAI_API_KEY")
          = Ret {| client_api_key := Some "o-key" |}) as Hc by (vm_compute; reflexivity).
  assert (fs st0 !! chatgpt_api.statement_path = Some sample_statement) as Hfile
    by (vm_compute; reflexivity).
  assert (locale_encode_error host_narrow_locale "```cpp // n ≤ 10 ```" = Some unencodable)
    as Hencode by (vm_compute; reflexivity).
  exact (X27_chatgpt_main_unencodable_answer host_narrow_locale sdk st0 _
           sample_statement "```cpp // n ≤ 10 ```" completion_with_sign
           {| message_content := Some "```cpp // n ≤ 10 ```" |} [] unencodable
           Hc Hfile eq_refl eq_refl eq_refl eq_refl Hencode).
Defined.

(** X17.  Without the statement file the OpenAI script stops at [open] with
    [FileNotFoundError], after the client was built and the credential
    printed: no request is issued and no file is written. *)
Theorem X17_chatgpt_main_missing_statement
    (host : Host) (sdk : openai_sdk) (st0 : state) (c : OpenAI) :
  OpenAI_new sdk (environ host !! "OPENAI_API_KEY") = Ret c →
  fs st0 !! chatgpt_api.statement_path = None →
  let final := chatgpt_api.main host sdk st0 in
  (∃ e, final.1 = Raise e ∧ exn_class e = FileNotFoundError)
  ∧ net final.2 = net st0
  ∧ fs final.2 = fs st0.
Proof.
  intros Hc Hfile final. subst final.
  assert (chatgpt_api.main host sdk st0
          = (Raise (Exn FileNotFoundError chatgpt_api.statement_path),
             State (<["client" := VClient c]>
                      (<["prompt" := VStr chatgpt_api.instruction]> ∅))
               (net st0)
               (stdout st0 ++ [default "None" (environ host !! "OPENAI_API_KEY")])
               (fs st0))) as ->.
  { unfold chatgpt_api.main.
    unfold bind at 1. unfold new_object at 1. cbv iota beta.
    unfold bind at 1. rewrite ExampleLLM__init__run. cbv zeta.
    cbn [self_dict net stdout fs]. rewrite Hc.
    unfold bind at 1. unfold read_file at 1. cbn [fs]. by rewrite Hfile. }
  split; [by eexists|done].
Qed.

Lemma X17_chatgpt_main_missing_statement_witness :
  let sdk := openai_replying (Ret completion_plain) in
  let final := chatgpt_api.main host_with_keys sdk st_empty in
  (∃ e, final.1 = Raise e ∧ exn_class e = FileNotFoundError)
  ∧ net final.2 = net st_empty
  ∧ fs final.2 = fs st_empty.
Proof.
  intros sdk.
  assert (OpenAI_new sdk (environ host_with_keys !! "OPENAI_API_KEY")
          = Ret {| client_api_key := Some "o-key" |}) as Hc by (vm_compute; reflexivity).
  assert (fs st_empty !! chatgpt_api.statement_path = None) as Hfile
    by (vm_compute; reflexivity).
  exact (X17_chatgpt_main_missing_statement host_with_keys sdk st_empty _ Hc Hfile).
Defined.

(** X18.  In every world the OpenAI script writes to no file but its output
    file: any other path, the statement file among them, holds afterwards
    what it held before. *)
Theorem X18_chatgpt_main_writes_only_output
    (host : Host) (sdk : openai_sdk) (st0 : state) (path : string) :
  path ≠ chatgpt_api.output_filename →
  file_at path (chatgpt_api.main host sdk st0).2 = file_at path st0.
Proof.
  intros Hne. revert st0. change (keeps_field (file_at path) (chatgpt_api.main host sdk)).
  unfold chatgpt_api.main.
  apply field_bind; [apply file_at_of_fs, fs_new_object|]. intros _.
  apply field_bind; [apply file_at_of_fs, fs_ExampleLLM__init__|]. intros _.
  apply field_bind; [apply field_read_file|]. intros statement.
  apply field_bind.
  - apply (field_chatgpt_generate_solution _ (chatgpt_api.ExampleLLM sdk)).
    intros p. apply file_at_of_fs, fs_ExampleLLM_call_llm.
  - intros [response meta].
    apply field_bind; [by apply file_at_open_w|]. intros _.
    apply field_bind; [by apply file_at_f_write_optional|]. intros _.
    apply file_at_of_fs, fs_print.
Qed.

Lemma X18_chatgpt_main_writes_only_output_witness :
  file_at chatgpt_api.statement_path
    (chatgpt_api.main host_with_keys (openai_replying (Ret completion_plain))
       st_with_chatgpt_statement).2
  = file_at chatgpt_api.statement_path st_with_chatgpt_statement.
Proof.
  refine (X18_chatgpt_main_writes_only_output host_with_keys
            (openai_replying (Ret completion_plain)) st_with_chatgpt_statement
            chatgpt_api.statement_path _).
  discriminate.
Defined.

(** ** The Gemini entry point, in full *)

Lemma try_except_bind_ret {A B} (c : M A) (k : A → M B) (handler : exn → M B)
    (st st' : state) (a : A) :
  c st = (Ret a, st') →
  try_except (bind c k) handler st = try_except (k a) handler st'.
Proof. intros Hc. unfold try_except, bind. by rewrite Hc. Qed.

(** A [try] whose handler cannot raise lets no [Exception] out. *)
Lemma try_except_raises_no_Exception {A} (body : M A) (handler : exn → M A) :
  (∀ e st, ∃ a, (handler e st).1 = Ret a) →
  raises_no_Exception (try_except body handler).
Proof.
  intros Hh st e. unfold try_except.
  destruct (body st) as [[a|e'] st']; [done|].
  destruct (isinstance_Exception e') eqn:He'.
  - destruct (Hh e' st') as [a Ha]. by rewrite Ha.
  - cbn [fst]. by intros [= <-].
Qed.

Lemma GeminiLLM__init__raises_no_Exception (host : Host) (sdk : genai_sdk) :
  raises_no_Exception (gemini_api.GeminiLLM__init__ host sdk).
Proof.
  intros st e. unfold gemini_api.GeminiLLM__init__, gemini_api.LLMInterface__init__.
  unfold bind at 1. unfold setattr_self at 1. cbv iota beta.
  apply try_except_raises_no_Exception. intros e' st'. by exists tt.
Qed.

(** Closes a goal about a file other than the one being written. *)
Ltac file_step :=
  first [ apply field_bind; [|intros ?]
        | apply field_try_except; [|intros ?]
        | solve [auto with frame]
        | solve [apply file_at_of_fs; auto with frame]
        | solve [apply file_at_open_w; done]
        | solve [apply file_at_f_write; done]
        | match goal with |- keeps_field _ (if ?b then _ else _) => destruct b end
        | match goal with |- keeps_field _ (match ?x with (_, _) => _ end) =>
            destruct x
          end ].

Section gemini_main.
Variable host : Host.
Variable sdk : genai_sdk.

(** The three parts of the [__main__] block after construction: the
    fallback that creates the statement file, the body of the [try], and
    its handler. *)
Local Abbreviation fallback :=
  (print ("Error: The file '" +:+ gemini_api.problem_file_path +:+ "' was not found.") ;;;
   print "Please create the file with a problem statement or update the path in the script." ;;;
   open_w host gemini_api.problem_file_path ;;;
   f_write gemini_api.problem_file_path
     "This is a placeholder problem. Please replace it with a real one." ;;;
   print ("A placeholder file has been created at '"
          +:+ gemini_api.problem_file_path +:+ "'.")).

Local Abbreviation report response meta :=
  (if gemini_api.is_valid_response response then
     open_w host gemini_api.output_filename ;;;
     f_write gemini_api.output_filename response ;;;
     print ("Solution successfully saved to " +:+ gemini_api.output_filename) ;;;
     print (nl +:+ "--- Metadata ---") ;;;
     print (gemini_api.str_of_meta meta)
   else
     print (nl +:+ "Failed to generate a valid solution.") ;;;
     print ("Response from API: " +:+ response)).

Local Abbreviation try_body :=
  (let* statement := read_file gemini_api.problem_file_path in
   print "Generating solution with Gemini..." ;;;
   let* (response, meta) :=
     gemini_api.generate_solution (self := gemini_api.GeminiLLM sdk) statement in
   report response meta).

Local Abbreviation handler :=
  (λ e : exn, print ("An unexpected error occurred: " +:+ exn_str e)).

(** The run after construction, by whether the statement file is there. *)
Lemma gemini_main_after_init (st0 : state) :
  gemini_api.main host sdk st0
  = match gemini_api.GeminiLLM__init__ host sdk
            (State ∅ (net st0) (stdout st0) (fs st0)) with
    | (Ret _, st1) =>
        match fs st0 !! gemini_api.problem_file_path with
        | Some _ => try_except try_body handler st1
        | None => (fallback ;;; try_except try_body handler) st1
        end
    | (Raise e, st1) => (Raise e, st1)
    end.
Proof.
  unfold gemini_api.main.
  unfold bind at 1. unfold new_object at 1. cbv iota beta.
  unfold bind at 1.
  pose proof (fs_GeminiLLM__init__ host sdk (State ∅ (net st0) (stdout st0) (fs st0)))
    as Hfs.
  destruct (gemini_api.GeminiLLM__init__ host sdk _) as [[[]|e] st1]; [|done].
  cbn [snd fs] in Hfs.
  unfold bind at 1. unfold os_path_exists at 1. cbv iota beta. rewrite Hfs.
  destruct (fs st0 !! gemini_api.problem_file_path) as [statement|].
  - rewrite bool_decide_true by by eexists. cbn [negb].
    unfold bind at 1. by unfold ret at 1.
  - rewrite bool_decide_false by by intros [? [=]]. by cbn [negb].
Qed.

(** The [try] of the entry point on a constructed adapter, once the
    statement is read: what is left is the provider call and the report. *)
Lemma gemini_try_after_read (st1 : state) (statement : string) :
  fs st1 !! gemini_api.problem_file_path = Some statement →
  self_dict st1 !! "prompt" = Some (VStr gemini_api.instruction) →
  try_except try_body handler st1
  = try_except
      (let* (response, meta) :=
         gemini_api.GeminiLLM_call_llm sdk (gemini_api.instruction +:+ statement) in
       report response meta)
      handler
      (State (self_dict st1) (net st1)
         (stdout st1 ++ ["Generating solution with Gemini..."]) (fs st1)).
Proof.
  intros Hfile Hprompt.
  rewrite (try_except_bind_ret _ _ _ st1 st1 statement)
    by (unfold read_file; by rewrite Hfile).
  rewrite (try_except_bind_ret _ _ _ st1
             (State (self_dict st1) (net st1)
                (stdout st1 ++ ["Generating solution with Gemini..."]) (fs st1)) tt)
    by done.
  unfold try_except, bind.
  by rewrite (gemini_generate_solution_unfold _ statement gemini_api.instruction).
Qed.

Lemma file_at_gemini_try (path : string) :
  path ≠ gemini_api.output_filename →
  keeps_field (file_at path) (try_except try_body handler).
Proof.
  intros Hne.
  apply field_try_except; [|intros e; file_step].
  apply field_bind; [file_step|]. intros statement.
  apply field_bind; [file_step|]. intros _.
  apply field_bind.
  - apply (field_gemini_generate_solution _ (gemini_api.GeminiLLM sdk)).
    intros p. apply file_at_of_fs, fs_GeminiLLM_call_llm.
  - intros [response meta]. repeat file_step.
Qed.

Lemma file_at_gemini_fallback (path : string) :
  path ≠ gemini_api.problem_file_path →
  keeps_field (file_at path) fallback.
Proof. intros Hne. repeat file_step. Qed.

(** After the provider call nothing in the [try] reaches the network. *)
Lemma net_gemini_try_after_call {A} (c : M (string * A))
    (k : string * A → M unit) (st : state) :
  (∀ a, issues_at_most 0 (k a)) →
  net (try_except (bind c k) handler st).2 = net (c st).2.
Proof.
  intros Hk. unfold try_except, bind.
  destruct (c st) as [[a|e] st1]; cbn [snd].
  - destruct (Hk a st1) as (new & Hnet & Hlen).
    destruct new; [|cbn [length] in Hlen; lia]. rewrite app_nil_r in Hnet.
    destruct (k a st1) as [[[]|e] st2]; cbn [snd] in *; [done|].
    by destruct (isinstance_Exception e).
  - by destruct (isinstance_Exception e).
Qed.

(** The fallback, when the statement file can be created. *)
Lemma gemini_fallback_run (st1 : state) :
  open_w_error host gemini_api.problem_file_path = None →
  fallback st1
  = (Ret tt,
     State (self_dict st1) (net st1)
       (stdout st1
        ++ ["Error: The file '" +:+ gemini_api.problem_file_path +:+ "' was not found.";
            "Please create the file with a problem statement or update the path in the script.";
            "A placeholder file has been created at '"
            +:+ gemini_api.problem_file_path +:+ "'."])
       (<[gemini_api.problem_file_path :=
            "This is a placeholder problem. Please replace it with a real one."]> (fs st1))).
Proof.
  intros Hopen. unfold bind, print, open_w, f_write.
  cbn [self_dict net stdout fs]. rewrite Hopen. cbn [self_dict net stdout fs].
  rewrite lookup_insert_eq. cbn [default]. rewrite insert_insert_eq.
  by rewrite <- !app_assoc.
Qed.

End gemini_main.

(** The entry point with credential, model and statement in place: the run
    up to the provider's answer. *)
Lemma gemini_main_ready (host : Host) (sdk : genai_sdk) (st0 : state)
    (key statement : string) (m : GenerativeModel) :
  environ host !! "GOOGLE_API_KEY" = Some key →
  key ≠ "" →
  genai_configure sdk key = Ret tt →
  GenerativeModel_new sdk "gemini-2.5-pro" = Ret m →
  fs st0 !! gemini_api.problem_file_path = Some statement →
  gemini_api.main host sdk st0
  = try_except
      (let* (response, meta) :=
         gemini_api.GeminiLLM_call_llm sdk (gemini_api.instruction +:+ statement) in
       if gemini_api.is_valid_response response then
         open_w host gemini_api.output_filename ;;;
         f_write gemini_api.output_filename response ;;;
         print ("Solution successfully saved to " +:+ gemini_api.output_filename) ;;;
         print (nl +:+ "--- Metadata ---") ;;;
         print (gemini_api.str_of_meta meta)
       else
         print (nl +:+ "Failed to generate a valid solution.") ;;;
         print ("Response from API: " +:+ response))
      (λ e : exn, print ("An unexpected error occurred: " +:+ exn_str e))
      (State (<["model" := VModel m]> (<["prompt" := VStr gemini_api.instruction]> ∅))
         (net st0) (stdout st0 ++ ["Generating solution with Gemini..."]) (fs st0)).
Proof.
  intros Henv Hkey Hconf Hnew Hfile.
  rewrite gemini_main_after_init.
  rewrite (GeminiLLM__init__with_key host sdk _ key m Henv Hkey Hconf Hnew).
  cbn [self_dict net stdout fs]. rewrite Hfile.
  rewrite (gemini_try_after_read host sdk _ statement); [done|done|].
  cbn [self_dict]. rewrite lookup_insert_ne by done. apply lookup_insert_eq.
Qed.



(** X20.  When the answer is good but the output file cannot be opened, the
    Gemini script does not fail: the [except] around the run catches the
    error, prints it as unexpected, and the run returns with no file
    written. *)
Theorem X20_gemini_main_output_unwritable
    (host : Host) (sdk : genai_sdk) (st0 : state)
    (key statement t : string) (m : GenerativeModel) (r : GenerateContentResponse)
    (e : exn) :
  environ host !! "GOOGLE_API_KEY" = Some key →
  key ≠ "" →
  genai_configure sdk key = Ret tt →
  GenerativeModel_new sdk "gemini-2.5-pro" = Ret m →
  fs st0 !! gemini_api.problem_file_path = Some statement →
  model_generate_content sdk (net st0) m (gemini_api.instruction +:+ statement)
    gemini_api.request_options = Ret r →
  text r = Ret t →
  gemini_api.is_valid_response t = true →
  open_w_error host gemini_api.output_filename = Some e →
  isinstance_Exception e = true →
  let final := gemini_api.main host sdk st0 in
  final.1 = Ret tt
  ∧ fs final.2 = fs st0
  ∧ stdout final.2
    = (stdout st0 ++ ["Generating solution with Gemini...";
                      "An unexpected error occurred: " +:+ exn_str e])%list.
Proof.
  intros Henv Hkey Hconf Hnew Hfile Hcall Htext Hvalid Hopen He final. subst final.
  assert (gemini_api.main host sdk st0
          = (Ret tt,
             State (<["model" := VModel m]> (<["prompt" := VStr gemini_api.instruction]> ∅))
               (net st0 ++ [generate_content m (gemini_api.instruction +:+ statement)
                              gemini_api.request_options])
               (stdout st0 ++ ["Generating solution with Gemini...";
                               "An unexpected error occurred: " +:+ exn_str e])
               (fs st0))) as ->; [|done].
  rewrite (gemini_main_ready host sdk st0 key statement m Henv Hkey Hconf Hnew Hfile).
  unfold try_except, bind at 1.
  rewrite (GeminiLLM_call_llm_ready sdk _ _ m) by (cbn [self_dict]; apply lookup_insert_eq).
  cbv zeta. cbn [self_dict net stdout fs]. rewrite Hcall, Htext, Hvalid.
  unfold bind, open_w. rewrite Hopen, He.
  unfold print. cbn [self_dict net stdout fs].
  by rewrite <- !app_assoc.
Qed.

Lemma X20_gemini_main_output_unwritable_witness :
  let final := gemini_api.main host_output_locked genai_answering st_with_statement in
  final.1 = Ret tt
  ∧ fs final.2 = fs st_with_statement
  ∧ stdout final.2
    = (stdout st_with_statement
       ++ ["Generating solution with Gemini...";
           "An unexpected error occurred: [Errno 13] Permission denied"])%list.
Proof.
  assert (environ host_output_locked !! "GOOGLE_API_KEY" = Some "g-key") as Henv
    by (vm_compute; reflexivity).
  assert (fs st_with_statement !! gemini_api.problem_file_path = Some sample_statement)
    as Hfile by (vm_compute; reflexivity).
  refine (X20_gemini_main_output_unwritable host_output_locked genai_answering
            st_with_statement "g-key" sample_statement
            "```cpp int main() { return 1; } ```"
            {| model_name := "gemini-2.5-pro" |} response_plain permission_denied
            Henv _ eq_refl eq_refl Hfile eq_refl eq_refl _ _ eq_refl).
  - discriminate.
  - vm_compute; reflexivity.
  - vm_compute; reflexivity.
Defined.

(** X21.  A run of the Gemini script without credential, statement file in
    place: whatever the SDK would do, the run returns, reports the failure
    with the degraded adapter's text, issues no request and writes no
    file. *)
Theorem X21_gemini_main_without_credential
    (host : Host) (sdk : genai_sdk) (st0 : state) (statement : string) :
  environ host !! "GOOGLE_API_KEY" = None →
  fs st0 !! gemini_api.problem_file_path = Some statement →
  gemini_api.main host sdk st0
  = (Ret tt,
     State (<["model" := VNone]> (<["prompt" := VStr gemini_api.instruction]> ∅))
       (net st0)
       (stdout st0
        ++ ["Error during Gemini initialization: GOOGLE_API_KEY not found in environment variables.";
            "Generating solution with Gemini...";
            nl +:+ "Failed to generate a valid solution.";
            "Response from API: Error: Model not initialized."])
       (fs st0)).
Proof.
  intros Henv Hfile.
  rewrite gemini_main_after_init.
  rewrite (GeminiLLM__init__no_key host sdk _ Henv).
  cbn [self_dict net stdout fs]. rewrite Hfile.
  rewrite (gemini_try_after_read host sdk _ statement);
    [|done|cbn [self_dict]; rewrite lookup_insert_ne by done; apply lookup_insert_eq].
  cbn [self_dict net stdout fs].
  unfold try_except, bind at 1.
  rewrite GeminiLLM_call_llm_degraded by (cbn [self_dict]; apply lookup_insert_eq).
  replace (gemini_api.is_valid_response "Error: Model not initialized.") with false
    by (vm_compute; reflexivity).
  unfold bind, print. cbn [self_dict net stdout fs].
  by rewrite <- !app_assoc.
Qed.

Lemma X21_gemini_main_without_credential_witness :
  gemini_api.main host_no_key genai_answering st_with_statement
  = (Ret tt,
     State (<["model" := VNone]> (<["prompt" := VStr gemini_api.instruction]> ∅))
       (net st_with_statement)
       (stdout st_with_statement
        ++ ["Error during Gemini initialization: GOOGLE_API_KEY not found in environment variables.";
            "Generating solution with Gemini...";
            nl +:+ "Failed to generate a valid solution.";
            "Response from API: Error: Model not initialized."])
       (fs st_with_statement)).
Proof.
  assert (fs st_with_statement !! gemini_api.problem_file_path = Some sample_statement)
    as Hfile by (vm_compute; reflexivity).
  exact (X21_gemini_main_without_credential host_no_key genai_answering st_with_statement
           sample_statement eq_refl Hfile).
Defined.



(** X23.  With the statement file in place, the Gemini script never ends
    with an [Exception]: in every world it either returns or is cut short
    by something [except Exception] does not match; and the statement file
    still holds what it held. *)
Theorem X23_gemini_main_absorbs_exceptions
    (host : Host) (sdk : genai_sdk) (st0 : state) (statement : string) :
  fs st0 !! gemini_api.problem_file_path = Some statement →
  let final := gemini_api.main host sdk st0 in
  (final.1 = Ret tt ∨ ∃ e, final.1 = Raise e ∧ isinstance_Exception e = false)
  ∧ file_at gemini_api.problem_file_path final.2 = Some statement.
Proof.
  intros Hfile final. subst final.
  rewrite gemini_main_after_init. rewrite Hfile.
  pose proof (GeminiLLM__init__raises_no_Exception host sdk
                (State ∅ (net st0) (stdout st0) (fs st0))) as Hraise.
  pose proof (fs_GeminiLLM__init__ host sdk (State ∅ (net st0) (stdout st0) (fs st0)))
    as Hfs.
  destruct (gemini_api.GeminiLLM__init__ host sdk _) as [[[]|e'] st1];
    cbn [fst snd fs] in *.
  - split.
    + match goal with
      | |- context [try_except ?body ?handler st1] =>
          pose proof (try_except_raises_no_Exception body handler
                        (λ e st, ex_intro _ tt eq_refl) st1) as Hno;
          destruct (try_except body handler st1) as [[[]|e] st2]
      end; [by left|].
      right. exists e. split; [done|]. by apply Hno.
    + rewrite (file_at_gemini_try host sdk gemini_api.problem_file_path) by done.
      unfold file_at. by rewrite Hfs.
  - split; [right; exists e'; split; [done|by apply Hraise]|].
    unfold file_at. by rewrite Hfs.
Qed.

Lemma X23_gemini_main_absorbs_exceptions_witness :
  let sdk := genai_replying (Raise deadline_exceeded) in
  let final := gemini_api.main host_with_keys sdk st_with_statement in
  (final.1 = Ret tt ∨ ∃ e, final.1 = Raise e ∧ isinstance_Exception e = false)
  ∧ file_at gemini_api.problem_file_path final.2 = Some sample_statement.
Proof.
  intros sdk.
  assert (fs st_with_statement !! gemini_api.problem_file_path = Some sample_statement)
    as Hfile by (vm_compute; reflexivity).
  exact (X23_gemini_main_absorbs_exceptions host_with_keys sdk st_with_statement
           sample_statement Hfile).
Defined.

Lemma bind_ret_step {A B} (c : M A) (k : A → M B) (st st' : state) (a : A) :
  c st = (Ret a, st') → bind c k st = k a st'.
Proof. intros Hc. unfold bind. by rewrite Hc. Qed.

(** X24.  When the statement file is missing and can be created, the
    Gemini script creates it with the placeholder sentence and carries on:
    the run returns unless interrupted, and when it returns the file holds
    exactly the placeholder. *)
Theorem X24_gemini_main_creates_placeholder
    (host : Host) (sdk : genai_sdk) (st0 : state) :
  fs st0 !! gemini_api.problem_file_path = None →
  open_w_error host gemini_api.problem_file_path = None →
  let final := gemini_api.main host sdk st0 in
  (final.1 = Ret tt ∨ ∃ e, final.1 = Raise e ∧ isinstance_Exception e = false)
  ∧ (final.1 = Ret tt →
     file_at gemini_api.problem_file_path final.2
     = Some "This is a placeholder problem. Please replace it with a real one.").
Proof.
  intros Hfile Hopen final. subst final.
  rewrite gemini_main_after_init. rewrite Hfile.
  pose proof (GeminiLLM__init__raises_no_Exception host sdk
                (State ∅ (net st0) (stdout st0) (fs st0))) as Hraise.
  destruct (gemini_api.GeminiLLM__init__ host sdk _) as [[[]|e'] st1];
    cbn [fst snd] in *.
  - erewrite bind_ret_step by (by apply gemini_fallback_run).
    split.
    + match goal with
      | |- context [try_except ?body ?handler ?after] =>
          pose proof (try_except_raises_no_Exception body handler
                        (λ e0 s0, ex_intro _ tt eq_refl) after) as Hno;
          destruct (try_except body handler after) as [[[]|e] st2]
      end; [by left|].
      right. exists e. split; [done|]. by apply Hno.
    + intros _.
      rewrite (file_at_gemini_try host sdk gemini_api.problem_file_path) by done.
      unfold file_at. cbn [fs]. apply lookup_insert_eq.
  - split; [|done]. right. exists e'. split; [done|]. by apply Hraise.
Qed.

Lemma X24_gemini_main_creates_placeholder_witness :
  let final := gemini_api.main host_with_keys genai_answering st_empty in
  (final.1 = Ret tt ∨ ∃ e, final.1 = Raise e ∧ isinstance_Exception e = false)
  ∧ (final.1 = Ret tt →
     file_at gemini_api.problem_file_path final.2
     = Some "This is a placeholder problem. Please replace it with a real one.").
Proof.
  assert (fs st_empty !! gemini_api.problem_file_path = None) as Hfile
    by (vm_compute; reflexivity).
  exact (X24_gemini_main_creates_placeholder host_with_keys genai_answering st_empty
           Hfile eq_refl).
Defined.

(** On an adapter that holds a model, the request log grows by exactly the
    one request, however the call ends. *)
Lemma GeminiLLM_call_llm_net (sdk : genai_sdk) (p : string) (st : state)
    (m : GenerativeModel) :
  self_dict st !! "model" = Some (VModel m) →
  net (gemini_api.GeminiLLM_call_llm sdk p st).2
  = (net st ++ [generate_content m p gemini_api.request_options])%list.
Proof.
  intros Hm. rewrite (GeminiLLM_call_llm_ready sdk p st m Hm). cbv zeta.
  destruct (model_generate_content sdk (net st) m p _) as [r|e].
  - destruct (text r) as [t|e]; [done|]. by destruct (isinstance_Exception e).
  - by destruct (isinstance_Exception e).
Qed.

(** X25.  With credential and model in place but no statement file, and
    provided that file can be created, the Gemini script sends the
    placeholder sentence to the provider as the problem to solve: its one
    request is the instruction followed by the placeholder. *)
Theorem X25_gemini_main_sends_placeholder
    (host : Host) (sdk : genai_sdk) (st0 : state) (key : string) (m : GenerativeModel) :
  environ host !! "GOOGLE_API_KEY" = Some key →
  key ≠ "" →
  genai_configure sdk key = Ret tt →
  GenerativeModel_new sdk "gemini-2.5-pro" = Ret m →
  fs st0 !! gemini_api.problem_file_path = None →
  open_w_error host gemini_api.problem_file_path = None →
  issued (gemini_api.main host sdk) st0
  = [generate_content m
       (gemini_api.instruction
        +:+ "This is a placeholder problem. Please replace it with a real one.")
       {[ "timeout" := 600 ]}].
Proof.
  intros Henv Hkey Hconf Hnew Hfile Hopen.
  apply issued_app.
  rewrite gemini_main_after_init.
  rewrite (GeminiLLM__init__with_key host sdk _ key m Henv Hkey Hconf Hnew).
  cbn [self_dict net stdout fs]. rewrite Hfile.
  erewrite bind_ret_step by (by apply gemini_fallback_run).
  cbn [self_dict net stdout fs].
  erewrite (gemini_try_after_read host sdk);
    [|cbn [fs]; apply lookup_insert_eq
     |cbn [self_dict]; rewrite lookup_insert_ne by done; apply lookup_insert_eq].
  cbn [self_dict net stdout fs].
  rewrite net_gemini_try_after_call.
  - by rewrite (GeminiLLM_call_llm_net sdk _ _ m)
      by (cbn [self_dict]; apply lookup_insert_eq).
  - intros [response meta]. repeat quiet_step.
Qed.

Lemma X25_gemini_main_sends_placeholder_witness :
  issued (gemini_api.main host_with_keys genai_answering) st_empty
  = [generate_content {| model_name := "gemini-2.5-pro" |}
       (gemini_api.instruction
        +:+ "This is a placeholder problem. Please replace it with a real one.")
       {[ "timeout" := 600 ]}].
Proof.
  assert (environ host_with_keys !! "GOOGLE_API_KEY" = Some "g-key") as Henv
    by (vm_compute; reflexivity).
  assert (fs st_empty !! gemini_api.problem_file_path = None) as Hfile
    by (vm_compute; reflexivity).
  refine (X25_gemini_main_sends_placeholder host_with_keys genai_answering st_empty
            "g-key" {| model_name := "gemini-2.5-pro" |}
            Henv _ eq_refl eq_refl Hfile eq_refl).
  discriminate.
Defined.

(** X26.  In every world the Gemini script writes to no file but its output
    file and the statement file: any other path holds afterwards what it
    held before. *)
Theorem X26_gemini_main_writes_only_its_files
    (host : Host) (sdk : genai_sdk) (st0 : state) (path : string) :
  path ≠ gemini_api.output_filename →
  path ≠ gemini_api.problem_file_path →
  file_at path (gemini_api.main host sdk st0).2 = file_at path st0.
Proof.
  intros Hout Hin. revert st0.
  change (keeps_field (file_at path) (gemini_api.main host sdk)).
  unfold gemini_api.main.
  apply field_bind; [file_step|]. intros _.
  apply field_bind; [apply file_at_of_fs, fs_GeminiLLM__init__|]. intros _.
  apply field_bind; [file_step|]. intros found.
  apply field_bind.
  - destruct (negb found); [by apply file_at_gemini_fallback|file_step].
  - intros _. by apply file_at_gemini_try.
Qed.

Lemma X26_gemini_main_writes_only_its_files_witness :
  file_at "notes.txt"
    (gemini_api.main host_with_keys genai_answering
       (State ∅ [] [] {[ "notes.txt" := "keep me" ]})).2
  = file_at "notes.txt" (State ∅ [] [] {[ "notes.txt" := "keep me" ]}).
Proof.
  refine (X26_gemini_main_writes_only_its_files host_with_keys genai_answering
            (State ∅ [] [] {[ "notes.txt" := "keep me" ]}) "notes.txt" _ _);
    discriminate.
Defined.
